(** * express-rest-decorators: the routing adapter and its HTTP errors

    A shallow embedding of [src/express.ts] (route handler generation,
    parameter extraction, middleware attachment), of the two versions of
    [src/middleware.ts] and of [src/errors/ConflictError.ts], with the
    properties the specification states about them.

    JavaScript values are a small inductive type; the adapter's effects
    (calls on the response, calls of [next], calls into application code,
    [new]) are recorded in a trace carried by a state-and-exception monad. *)

From Stdlib Require Import ZArith String List Bool Lia DecimalString.
From stdpp Require Import gmap strings list fin_maps.

Set Warnings "-register-all".
Open Scope string_scope.
Open Scope list_scope.

(** ** JavaScript values *)

(** The values the adapter inspects or passes around.  Numbers are the
    integers (status codes, counters).  A function value [VFun f props] is the
    function object [f] with its own properties, [prototype] among them
    (absent for an arrow function); [VNative] is a function of the framework
    (a continuation [next]), [VHost] an object of the framework (a response),
    [VPromise p] the promise [p] of the application.  An object made by [new]
    is [VInst oid proto]: its identity and the object it inherits from; the
    members it reads are those of that prototype.  A value handed to the
    adapter is described by the members that can be read off it: [member]
    looks a name up among the listed ones and nowhere else, so what an object
    inherits from a built-in prototype ([Object.prototype] and the like) is
    seen when it is listed and not otherwise.  The one object the adapter
    tests with [in], the routes object of the metadata, is treated apart
    ([in_routes]).  Thenables other than promises are not part of the
    model. *)
Inductive value : Type :=
| VUndefined
| VNull
| VBool (b : bool)
| VNum (n : Z)
| VStr (s : string)
| VArr (elems : list value)
| VObj (props : list (string * value))
| VFun (f : nat) (props : list (string * value))
| VInst (oid : nat) (proto : value)
| VNative (n : nat)
| VHost (h : nat)
| VPromise (p : nat)
| VError (name msg : string).

(** Result of evaluating something that may throw. *)
Inductive completion (A : Type) : Type :=
| Normal (a : A)
| Throw (e : value).
Arguments Normal {A} a.
Arguments Throw {A} e.

Inductive jstype : Type :=
| TyUndefined | TyObject | TyBoolean | TyNumber | TyString | TyFunction.

Definition typeOf (v : value) : jstype :=
  match v with
  | VUndefined => TyUndefined
  | VBool _ => TyBoolean
  | VNum _ => TyNumber
  | VStr _ => TyString
  | VFun _ _ | VNative _ => TyFunction
  | VNull | VArr _ | VObj _ | VInst _ _ | VHost _ | VPromise _ | VError _ _ => TyObject
  end.

Definition is_function (v : value) : bool :=
  match typeOf v with TyFunction => true | _ => false end.

(** Objects proper, as opposed to primitives and [null]. *)
Definition is_object (v : value) : bool :=
  match v with
  | VUndefined | VNull | VBool _ | VNum _ | VStr _ => false
  | _ => true
  end.

Definition is_undefined (v : value) : bool :=
  match v with VUndefined => true | _ => false end.

(** [v == null] : the values on which member access throws and [??] falls
    through. *)
Definition nullish (v : value) : bool :=
  match v with VUndefined | VNull => true | _ => false end.

(** ToBoolean. *)
Definition truthy (v : value) : bool :=
  match v with
  | VUndefined | VNull => false
  | VBool b => b
  | VNum n => negb (n =? 0)%Z
  | VStr s => negb (String.eqb s "")
  | _ => true
  end.

(** Truthiness of an optional string argument ([name?: string]): absent and
    empty are both falsy. *)
Definition truthy_str (s : option string) : bool :=
  match s with
  | Some s => negb (String.eqb s "")
  | None => false
  end.

(** Truthiness of an optional number ([status?: number]). *)
Definition truthy_num (n : option Z) : bool :=
  match n with
  | Some n => negb (n =? 0)%Z
  | None => false
  end.

Definition instanceof_Promise (v : value) : bool :=
  match v with VPromise _ => true | _ => false end.

Definition index_key (i : nat) : string :=
  NilZero.string_of_uint (Nat.to_uint i).

Fixpoint assoc (k : string) (props : list (string * value)) : value :=
  match props with
  | [] => VUndefined
  | (k', v) :: rest => if String.eqb k k' then v else assoc k rest
  end.

Fixpoint elem_at (k : string) (i : nat) (elems : list value) : value :=
  match elems with
  | [] => VUndefined
  | v :: rest => if String.eqb k (index_key i) then v else elem_at k (S i) rest
  end.

Fixpoint char_at (k : string) (i : nat) (s : string) : value :=
  match s with
  | EmptyString => VUndefined
  | String c rest =>
      if String.eqb k (index_key i) then VStr (String c EmptyString)
      else char_at k (S i) rest
  end.

(** [v[k]] for a [v] that is neither [undefined] nor [null]. *)
Fixpoint member (v : value) (k : string) : value :=
  match v with
  | VObj props => assoc k props
  | VArr elems =>
      if String.eqb k "length" then VNum (Z.of_nat (length elems))
      else elem_at k 0 elems
  | VStr s =>
      if String.eqb k "length" then VNum (Z.of_nat (String.length s))
      else char_at k 0 s
  | VFun _ props => assoc k props
  | VInst _ proto => if nullish proto then VUndefined else member proto k
  | VError name msg =>
      if String.eqb k "name" then VStr name
      else if String.eqb k "message" then VStr msg
      else VUndefined
  | _ => VUndefined
  end.

Definition TypeError (msg : string) : value := VError "TypeError" msg.

(** [v[k]], which throws a TypeError on [undefined] and [null]. *)
Definition get (v : value) (k : string) : completion value :=
  if nullish v then Throw (TypeError "Cannot read properties of undefined or null")
  else Normal (member v k).

(** [v?.[k]] *)
Definition get_opt (v : value) (k : string) : value :=
  if nullish v then VUndefined else member v k.

(** Arrays written by index: [a[i] = v] extends the array when [i] is past
    its end; the positions skipped read as [undefined]. *)
Definition array_set (a : list value) (i : nat) (v : value) : list value :=
  if (i <? length a)%nat then <[i := v]> a
  else a ++ replicate (i - length a) VUndefined ++ [v].

(** [a[i]] read from an array: [undefined] past the end. *)
Definition array_get (a : list value) (i : nat) : value :=
  default VUndefined (a !! i).

(** ** HTTP errors (src/errors) *)

Module Errors.

Record HttpError : Type := mkHttpError {
  name : string;
  status : Z;
  message : string
}.

(** Modelled from the spec: the base class [HttpError] ([./HttpError]) is not
    among the sources.  Per the specification an HTTP error carries its
    numeric status code as a readable attribute and, when no message is
    given, the empty message of a plain [Error]. *)
Definition HttpError_super (code : Z) : HttpError :=
  {| name := "Error"; status := code; message := "" |}.

Definition ConflictError (msg : option string) : HttpError :=
  let this := HttpError_super 409 in
  let this := {| name := "ConflictError"; status := status this; message := message this |} in
  if truthy_str msg
  then {| name := name this; status := status this; message := default "" msg |}
  else this.

Definition InternalServerError (msg : string) : HttpError :=
  let this := HttpError_super 500 in
  let this := {| name := "InternalServerError"; status := status this; message := message this |} in
  if truthy_str (Some msg)
  then {| name := name this; status := status this; message := msg |}
  else this.

End Errors.

(** ** Parameter extraction (src/express.ts) *)

(** Modelled from the spec: the enumeration [ParameterType] is declared in
    [./meta], which is not among the sources.  The specification lists eight
    source kinds; they are the eight members the switch of
    [extractParameters] names. *)
Inductive ParameterType : Type :=
| REQUEST | RESPONSE | PARAMS | QUERY | BODY | HEADERS | COOKIES | NEXT.

(** Modelled from the spec: [ParameterConfiguration] is declared in [./meta]
    too; the loop of [extractParameters] reads [name], [index] and [type]. *)
Record ParameterConfiguration : Type := mkParam {
  index : nat;
  type : ParameterType;
  name : option string
}.

Definition getParam (source : value) (paramType name : option string) : completion value :=
  let param :=
    match paramType with
    | Some pt =>
        if truthy_str (Some pt) then
          match get source pt with
          | Normal sub => Normal (if truthy sub then sub else source)
          | Throw e => Throw e
          end
        else Normal source
    | None => Normal source
    end in
  match param with
  | Normal param =>
      match name with
      | Some n => if truthy_str (Some n) then get param n else Normal param
      | None => Normal param
      end
  | Throw e => Throw e
  end.

(** The right-hand side of [args[index] = ...] in each case of the switch. *)
Definition param_value (req res next : value) (p : ParameterConfiguration) : completion value :=
  match type p with
  | RESPONSE => Normal res
  | REQUEST => getParam req None (name p)
  | NEXT => Normal next
  | PARAMS => getParam req (Some "params") (name p)
  | QUERY => getParam req (Some "query") (name p)
  | BODY => getParam req (Some "body") (name p)
  | HEADERS => getParam req (Some "headers") (name p)
  | COOKIES => getParam req (Some "cookies") (name p)
  end.

(** The [for ... of params] loop, threading [args]. *)
Fixpoint extract_loop (req res next : value) (params : list ParameterConfiguration)
    (args : list value) : completion (list value) :=
  match params with
  | [] => Normal args
  | p :: rest =>
      match param_value req res next p with
      | Normal v => extract_loop req res next rest (array_set args (index p) v)
      | Throw e => Throw e
      end
  end.

(** [params] defaults to the empty list when it is [undefined]. *)
Definition extractParameters (req res next : value)
    (params : option (list ParameterConfiguration)) : completion (list value) :=
  extract_loop req res next (default [] params) [].

(** ** Controller metadata and middleware attachment (src/express.ts) *)

(** Modelled from the spec: the metadata types are declared in [./meta], which
    is not among the sources; the records below follow the data model of the
    specification and hold the fields the adapter reads:
    [route.method], [route.url], [route.middleware]; [methodMeta.routes],
    [methodMeta.status]; [meta.url], [meta.routerOptions], [meta.middleware],
    [meta.routes], [meta.params]. *)
Record Route : Type := mkRoute {
  route_method : string;
  route_url : string;
  route_middleware : list value
}.

Record MethodMeta : Type := mkMethodMeta {
  method_routes : list Route;
  method_status : option Z
}.

Record ExpressMeta : Type := mkMeta {
  meta_url : string;
  meta_routerOptions : value;
  meta_middleware : list value;
  meta_routes : gmap string MethodMeta;
  meta_params : gmap string (list ParameterConfiguration)
}.

Definition with_middleware (mw : list value) (meta : ExpressMeta) : ExpressMeta :=
  {| meta_url := meta_url meta;
     meta_routerOptions := meta_routerOptions meta;
     meta_middleware := mw;
     meta_routes := meta_routes meta;
     meta_params := meta_params meta |}.

Definition with_routes (rs : gmap string MethodMeta) (meta : ExpressMeta) : ExpressMeta :=
  {| meta_url := meta_url meta;
     meta_routerOptions := meta_routerOptions meta;
     meta_middleware := meta_middleware meta;
     meta_routes := rs;
     meta_params := meta_params meta |}.

(** [meta.middleware.unshift(mw)] on a route declaration. *)
Definition route_unshift (mw : value) (r : Route) : Route :=
  {| route_method := route_method r;
     route_url := route_url r;
     route_middleware := mw :: route_middleware r |}.

(** The decorated target: a class (a function, whose [prototype] object
    carries the metadata) or that object itself.  Objects are named by their
    identity; the metadata store below holds one record per identity. *)
Inductive Target : Type :=
| TargetFunction (prototype : nat)
| TargetObject (obj : nat).

Definition empty_meta : ExpressMeta :=
  {| meta_url := ""; meta_routerOptions := VUndefined; meta_middleware := [];
     meta_routes := ∅; meta_params := ∅ |}.

(** Modelled from the spec: [getMeta] lives in [./meta], which is not among
    the sources.  It returns the record of the given class identity, the same
    one on every access, creating an empty one on first access. *)
Definition getMeta (target : nat) (store : gmap nat ExpressMeta) : ExpressMeta * gmap nat ExpressMeta :=
  match store !! target with
  | Some meta => (meta, store)
  | None => (empty_meta, <[target := empty_meta]> store)
  end.

(** [typeof target === 'function' ? target.prototype : target] *)
Definition targetClass (target : Target) : nat :=
  match target with
  | TargetFunction prototype => prototype
  | TargetObject obj => obj
  end.

(** The names of the members an ordinary object inherits from
    [Object.prototype]: eleven functions and the accessor [__proto__]. *)
Definition Object_prototype_names : list string :=
  ["constructor"; "__defineGetter__"; "__defineSetter__"; "hasOwnProperty";
   "__lookupGetter__"; "__lookupSetter__"; "isPrototypeOf"; "propertyIsEnumerable";
   "toString"; "valueOf"; "__proto__"; "toLocaleString"].

(** [property in routes].  The routes object is the mapping from method name
    to route group that [./meta] creates; it is an ordinary object, so the
    operator answers for the declared route groups, which are its own
    properties, and for the names it inherits. *)
Definition in_routes (property : string) (routes : gmap string MethodMeta) : bool :=
  match routes !! property with
  | Some _ => true
  | None => bool_decide (property ∈ Object_prototype_names)
  end.

(** The metadata record is shared and changed in place: the store gets the
    changed record back under the same identity.  [routes[0]] of a group
    without route declarations is [undefined], and reading [middleware] off it
    throws.  Under an inherited name that no route group shadows,
    [meta.routes[property]] is a member of [Object.prototype]; it has no
    [routes], and reading [0] off [undefined] throws. *)
Definition attachMiddleware (target : Target) (property : option string)
    (middleware : value) (store : gmap nat ExpressMeta) : completion unit * gmap nat ExpressMeta :=
  let '(meta, store) := getMeta (targetClass target) store in
  if negb (String.eqb (meta_url meta) "") then
    (Normal tt,
     <[targetClass target := with_middleware (middleware :: meta_middleware meta) meta]> store)
  else if truthy_str property && in_routes (default "" property) (meta_routes meta) then
    match meta_routes meta !! default "" property with
    | Some methodMeta =>
        match method_routes methodMeta with
        | route0 :: others =>
            let methodMeta' :=
              {| method_routes := route_unshift middleware route0 :: others;
                 method_status := method_status methodMeta |} in
            (Normal tt,
             <[targetClass target :=
                 with_routes (<[default "" property := methodMeta']> (meta_routes meta)) meta]>
               store)
        | [] =>
            (Throw (TypeError "Cannot read properties of undefined (reading 'middleware')"),
             store)
        end
    | None =>
        (Throw (TypeError "Cannot read properties of undefined (reading '0')"), store)
    end
  else (Normal tt, store).

(** ** The adapter's effects *)

(** What the adapter does to the world around it, in order: calls on the
    response, calls of functions (application code, or a continuation [next]
    of the framework), constructions.  [EUnhandled] marks a promise chain of
    the adapter's that ends rejected with nobody listening. *)
Inductive event : Type :=
| EStatus (res : value) (code : Z)
| ESend (res : value) (body : value)
| ECall (f : value) (this : value) (args : list value)
| ENew (cls : value) (inst : value)
| EUnhandled (e : value).

(** Everything outside the adapter, over a state [E] of its own: the
    framework's response objects and continuations, and the application's
    functions and constructors.  Application code may complete normally or
    throw; the framework's calls return. *)
Class Outside (E : Type) : Type := {
  headersSent : value -> E -> bool;
  framework : event -> E -> E;
  apply_fn : value -> value -> list value -> E -> completion value * E;
  constructor : value -> value -> E -> completion unit * E
}.

(** Closures the adapter hands to promises. *)
Inductive callback : Type :=
| SendResult (res : value) (status : option Z)
| Continuation (next : value).

(** [p.then(cb)] registers [OnFulfilled cb], [p.catch(cb)] registers
    [OnRejected cb]; a list of them is a chain [p.then(..).catch(..)]. *)
Inductive reaction : Type :=
| OnFulfilled (cb : callback)
| OnRejected (cb : callback).

Inductive settled : Type :=
| Fulfilled (v : value)
| Rejected (e : value).

Record world (E : Type) : Type := mkWorld {
  outside : E;
  next_oid : nat;
  reactions : list (nat * list reaction);
  trace : list event
}.
Arguments mkWorld {E} _ _ _ _.
Arguments outside {E} _.
Arguments next_oid {E} _.
Arguments reactions {E} _.
Arguments trace {E} _.

Declare Scope js_scope.
Delimit Scope js_scope with js.

Section Effects.

Context {E : Type} `{!Outside E}.

Definition M (A : Type) : Type := world E -> completion A * world E.

Definition ret {A : Type} (a : A) : M A := fun w => (Normal a, w).

Definition throw {A : Type} (e : value) : M A := fun w => (Throw e, w).

Definition bind {A B : Type} (m : M A) (k : A -> M B) : M B :=
  fun w =>
    match m w with
    | (Normal a, w') => k a w'
    | (Throw e, w') => (Throw e, w')
    end.

Definition lift {A : Type} (c : completion A) : M A := fun w => (c, w).

(** [try { body } catch (err) { handler }] *)
Definition try_catch {A : Type} (body : M A) (handler : value -> M A) : M A :=
  fun w =>
    match body w with
    | (Normal a, w') => (Normal a, w')
    | (Throw e, w') => handler e w'
    end.

Local Notation "x <- m ;; k" := (bind m (fun x => k))
  (at level 100, m at next level, right associativity) : js_scope.
Local Notation "m ;; k" := (bind m (fun _ => k))
  (at level 100, right associativity) : js_scope.
Local Open Scope js_scope.

Definition set_outside (e : E) (w : world E) : world E :=
  mkWorld e (next_oid w) (reactions w) (trace w).

Definition emit (ev : event) : M unit :=
  fun w => (Normal tt, mkWorld (outside w) (next_oid w) (reactions w) (trace w ++ [ev])).

(** A call that the framework answers. *)
Definition framework_call (ev : event) : M unit :=
  emit ev ;;
  fun w => (Normal tt, set_outside (framework ev (outside w)) w).

Definition res_headersSent (res : value) : M bool :=
  fun w => (Normal (headersSent res (outside w)), w).

Definition res_status (res : value) (code : Z) : M value :=
  framework_call (EStatus res code) ;; ret res.

Definition res_send (res : value) (body : value) : M value :=
  framework_call (ESend res body) ;; ret res.

(** [f.apply(this, args)] for a function [f]: application functions run
    their body, a continuation of the framework returns [undefined]. *)
Definition call (f this : value) (args : list value) : M value :=
  match f with
  | VFun _ _ =>
      emit (ECall f this args) ;;
      fun w =>
        let '(c, e) := apply_fn f this args (outside w) in
        (c, set_outside e w)
  | VNative _ =>
      framework_call (ECall f this args) ;; ret VUndefined
  | _ => throw (TypeError "not a function")
  end.

(** [f.call(this, ...args)] and [f.apply(this, args)] as written in the
    source, where [f] is whatever the member access produced. *)
Definition call_member (f this : value) (args : list value) : M value :=
  if nullish f then throw (TypeError "Cannot read properties of undefined or null")
  else if is_function f then call f this args
  else throw (TypeError "not a function").

(** [new cls()]: a fresh object inheriting from [cls.prototype] (from a plain
    object when that is not an object), on which the constructor body runs.
    The constructor returns nothing of its own. *)
Definition new (cls : value) : M value :=
  match cls with
  | VFun _ _ =>
      fun w =>
        let proto := member cls "prototype" in
        let inst := VInst (next_oid w) (if is_object proto then proto else VObj []) in
        let w1 := mkWorld (outside w) (S (next_oid w)) (reactions w)
                    (trace w ++ [ENew cls inst]) in
        let '(c, e) := constructor cls inst (outside w1) in
        match c with
        | Normal _ => (Normal inst, set_outside e w1)
        | Throw err => (Throw err, set_outside e w1)
        end
  | _ => throw (TypeError "not a constructor")
  end.

(** Registration of a chain of reactions on an application promise. *)
Definition register (p : value) (chain : list reaction) : M unit :=
  match p with
  | VPromise id =>
      fun w => (Normal tt,
                mkWorld (outside w) (next_oid w) (reactions w ++ [(id, chain)]) (trace w))
  | _ => ret tt
  end.

(** An [async] function call run to its settlement, and [await] on it. *)
Definition async (body : M value) : M settled :=
  fun w =>
    match body w with
    | (Normal v, w') => (Normal (Fulfilled v), w')
    | (Throw e, w') => (Normal (Rejected e), w')
    end.

Definition await (s : settled) : M value :=
  match s with
  | Fulfilled v => ret v
  | Rejected e => throw e
  end.

End Effects.

Arguments M E A : clear implicits.

Notation "x <- m ;; k" := (bind m (fun x => k))
  (at level 100, m at next level, right associativity) : js_scope.
Notation "m ;; k" := (bind m (fun _ => k))
  (at level 100, right associativity) : js_scope.
Open Scope js_scope.

(** ** Generated route handlers (src/express.ts) *)

Section Adapter.

Context {E : Type} `{!Outside E}.

(** The arrow function [routeHandler] passes to [then]. *)
Definition onResult (res : value) (status : option Z) (r : value) : M E value :=
  sent <- res_headersSent res ;;
  if negb sent && negb (is_undefined r) then
    (if truthy_num status then res_status res (default 0%Z status) else ret res) ;;
    res_send res r ;;
    ret VUndefined
  else ret VUndefined.

Definition run_callback (cb : callback) (arg : value) : M E value :=
  match cb with
  | SendResult res status => onResult res status arg
  | Continuation next => call next VUndefined [arg]
  end.

(** One link of a promise chain: the settlement of the promise [then] or
    [catch] returns, given the settlement of the promise it was called on. *)
Definition react (r : reaction) (s : settled) : M E settled :=
  match r, s with
  | OnFulfilled cb, Fulfilled v => async (run_callback cb v)
  | OnRejected cb, Rejected e => async (run_callback cb e)
  | _, _ => ret s
  end.

Fixpoint run_chain (chain : list reaction) (s : settled) : M E settled :=
  match chain with
  | [] => ret s
  | r :: rest => s' <- react r s ;; run_chain rest s'
  end.

(** The last promise of a chain is dropped by the adapter: a rejection that
    reaches it is unhandled. *)
Definition chain_end (s : settled) : M E unit :=
  match s with
  | Fulfilled _ => ret tt
  | Rejected e => emit (EUnhandled e)
  end.

Fixpoint run_chains (s : settled) (chains : list (list reaction)) : M E unit :=
  match chains with
  | [] => ret tt
  | chain :: rest =>
      s' <- run_chain chain s ;;
      chain_end s' ;;
      run_chains s rest
  end.

(** The chains registered on promise [p], oldest first. *)
Definition chains_on (p : nat) (w : world E) : list (list reaction) :=
  snd <$> filter (fun qc => fst qc = p) (reactions w).

(** The application promise [p] settles: the chains registered on it run, in
    the order of their registration, and leave the registry. *)
Definition settle (p : nat) (s : settled) (w : world E) : world E :=
  let others := filter (fun qc => fst qc <> p) (reactions w) in
  snd (run_chains s (chains_on p w)
         (mkWorld (outside w) (next_oid w) others (trace w))).

Definition routeHandler (controller : value) (methodName : string)
    (params : option (list ParameterConfiguration)) (status : option Z)
    (req res next : value) : M E value :=
  args <- lift (extractParameters req res next params) ;;
  method <- lift (get controller methodName) ;;
  result <- call_member method controller args ;;
  (if instanceof_Promise result then
     register result [OnFulfilled (SendResult res status); OnRejected (Continuation next)]
   else if negb (is_undefined result) then
     sent <- res_headersSent res ;;
     if negb sent then
       (if truthy_num status then res_status res (default 0%Z status) else ret res) ;;
       res_send res result ;;
       ret tt
     else ret tt
   else ret tt) ;;
  ret result.

(** ** Middleware handlers (src/middleware.ts, current version) *)

(** The [async] functions of this file run to their settlement in one go:
    what other code does between their steps is not part of the model. *)
Definition getMiddlewareInstance (middleware : value) : M E value :=
  if is_function middleware then
    if truthy (get_opt (member middleware "prototype") "use")
    then new middleware
    else ret middleware
  else ret VUndefined.

Definition invokeMiddleware (middleware : value) (args : list value) : M E value :=
  let next := array_get args (length args - 1) in
  try_catch
    (pending <- async (getMiddlewareInstance middleware) ;;
     instance <- await pending ;;
     if negb (truthy instance) then call next VUndefined []
     else
       let use := get_opt instance "use" in
       let handler := if nullish use then instance else use in
       result <- (if is_function handler then call_member handler instance args
                  else ret instance) ;;
       (if instanceof_Promise result
        then register result [OnRejected (Continuation next)]
        else ret tt) ;;
       ret VUndefined)
    (fun err => call next VUndefined [err] ;; ret VUndefined).

(** [invokeMiddleware(middleware, [req, res, next]).catch(next)]; the promise
    [catch] returns is dropped. *)
Definition middlewareHandler (middleware : value) (req res next : value) : M E value :=
  pending <- async (invokeMiddleware middleware [req; res; next]) ;;
  s <- react (OnRejected (Continuation next)) pending ;;
  chain_end s ;;
  ret VUndefined.

End Adapter.

(** ** Middleware handlers (src/middleware.ts, earlier version) *)

Module Old.
Section Adapter.

Context {E : Type} `{!Outside E}.

(** [middleware.use.apply(args)] passes the argument array as [this] and no
    arguments. *)
Definition invokeMiddleware (middleware : value) (args : list value) : M E value :=
  let next := array_get args (length args - 1) in
  try_catch
    (if negb (truthy middleware) then call next VUndefined []
     else
       use <- lift (get middleware "use") ;;
       call_member use (VArr args) [] ;;
       ret VUndefined)
    (fun err => call next VUndefined [err] ;; ret VUndefined).

Definition middlewareHandler (middleware : value) (req res next : value) : M E value :=
  pending <- async (invokeMiddleware middleware [req; res; next]) ;;
  s <- react (OnRejected (Continuation next)) pending ;;
  chain_end s ;;
  ret VUndefined.

End Adapter.
End Old.

(** ** Vocabulary of the statements *)

(** The declaration that wrote position [i] last, if any. *)
Fixpoint last_declared (i : nat) (params : list ParameterConfiguration)
    : option ParameterConfiguration :=
  match params with
  | [] => None
  | p :: rest =>
      match last_declared i rest with
      | Some q => Some q
      | None => if Nat.eqb (index p) i then Some p else None
      end
  end.

(** The chain [then(..).catch(next)] that the handler hangs on the promise. *)
Definition route_chain (res : value) (status : option Z) (next : value) : list reaction :=
  [OnFulfilled (SendResult res status); OnRejected (Continuation next)].

(** The call [next(e)] as it shows in the trace. *)
Definition forwarded (n : nat) (e : value) : event :=
  ECall (VNative n) VUndefined [e].

(** ** A small application, to run the adapter on

    The outside state is the response's headers-sent flag, which [send]
    raises.  Function 1 throws, function 2 returns the promise 5, function 3
    returns a string, every other function returns [undefined]; the
    constructor of class 9 throws, every other constructor returns. *)

Module Demo.

Definition boom : value := VError "Error" "boom".

#[global] Instance app : Outside bool := {|
  headersSent := fun _ sent => sent;
  framework := fun ev sent => match ev with ESend _ _ => true | _ => sent end;
  apply_fn := fun f _ _ sent =>
    match f with
    | VFun 1 _ => (Throw boom, sent)
    | VFun 2 _ => (Normal (VPromise 5), sent)
    | VFun 3 _ => (Normal (VStr "ok"), sent)
    | _ => (Normal VUndefined, sent)
    end;
  constructor := fun cls _ sent =>
    match cls with
    | VFun 9 _ => (Throw boom, sent)
    | _ => (Normal tt, sent)
    end
|}.

Definition start : world bool := mkWorld false 0 [] [].

(** A controller instance with three methods. *)
Definition controller : value :=
  VInst 100 (VObj [("fails", VFun 1 []); ("later", VFun 2 []); ("now", VFun 3 [])]).

(** A plain middleware function and a middleware class with [use]. *)
Definition plain : value := VFun 4 [("prototype", VObj [])].
Definition Logger_prototype : value := VObj [("use", VFun 7 [])].
Definition Logger : value := VFun 6 [("prototype", Logger_prototype)].

(** A class whose [use] throws, and a class whose constructor throws. *)
Definition Failing : value := VFun 8 [("prototype", VObj [("use", VFun 1 [])])].
Definition Unbuildable : value := VFun 9 [("prototype", VObj [("use", VFun 7 [])])].

Definition req : value := VObj [("params", VObj [("id", VStr "7")])].
Definition res : value := VHost 0.
Definition next : value := VNative 0.

End Demo.

(** ** Registration at startup (src/express.ts) *)

(** The handlers the adapter gives to the framework are closures; each is
    named here by the function that makes it and by what it closes over. *)
Inductive handler : Type :=
| MiddlewareHandler (middleware : value)
| RouteHandler (controller : value) (methodName : string)
    (params : option (list ParameterConfiguration)) (status : option Z).

(** What a router of the framework has been told, in order:
    [router.use(...handlers)] and [router[name](url, ...handlers)]. *)
Inductive router_call : Type :=
| RouterUse (handlers : list handler)
| RouterMember (name : string) (url : string) (handlers : list handler).

(** A router made by [Router(options)]. *)
Record Router : Type := mkRouter {
  router_options : value;
  router_calls : list router_call
}.

(** What the application (or parent router) has been told, in order:
    [app.use(fn)] and [app.use(url, router)]. *)
Inductive app_call : Type :=
| AppUse (fn : value)
| AppMount (url : string) (router : Router).

(** What the adapter relies on at startup and does not define: the members a
    router of the framework has ([router[name]], a function of the framework
    under the names of the HTTP methods it supports), and the order in which
    [Object.entries] lists the route groups of a metadata record, which the
    map of the record does not keep. *)
Class Host : Type := {
  router_member : string -> value;
  Object_entries : gmap string MethodMeta -> list (string * MethodMeta);
  Object_entries_spec : forall m, Object_entries m ≡ₚ map_to_list m
}.

(** Modelled from the spec: a controller as [getMeta] sees it, the value
    together with the class identity its metadata is kept under. *)
Record ControllerRef : Type := mkController {
  controller_class : nat;
  controller_value : value
}.

Section Handlers.

Context {E : Type} `{!Outside E}.

(** Invoking a handler the adapter made. *)
Definition run_handler (h : handler) (req res next : value) : M E value :=
  match h with
  | MiddlewareHandler middleware => middlewareHandler middleware req res next
  | RouteHandler controller methodName params status =>
      routeHandler controller methodName params status req res next
  end.

End Handlers.

Section Registration.

Context `{!Host}.

(** The body of [methodMeta.routes.forEach]: the member of the router named by
    [route.method] is applied to the path, the route's middleware handlers and
    the generated handler. *)
Definition register_route (controller : value) (meta : ExpressMeta)
    (methodName : string) (methodMeta : MethodMeta) (route : Route) (router : Router)
    : completion Router :=
  let routeMiddleware := MiddlewareHandler <$> route_middleware route in
  let handler :=
    RouteHandler controller methodName (meta_params meta !! methodName)
      (method_status methodMeta) in
  let register := router_member (route_method route) in
  if nullish register then
    Throw (TypeError "Cannot read properties of undefined or null")
  else if is_function register then
    Normal (mkRouter (router_options router)
              (router_calls router
               ++ [RouterMember (route_method route) (route_url route)
                     (routeMiddleware ++ [handler])]))
  else Throw (TypeError "not a function").

Fixpoint forEach_route (controller : value) (meta : ExpressMeta)
    (methodName : string) (methodMeta : MethodMeta) (routes : list Route) (router : Router)
    : completion Router :=
  match routes with
  | [] => Normal router
  | route :: rest =>
      match register_route controller meta methodName methodMeta route router with
      | Normal router => forEach_route controller meta methodName methodMeta rest router
      | Throw e => Throw e
      end
  end.

(** [for (const [methodName, methodMeta] of Object.entries(meta.routes))] *)
Fixpoint for_entries (controller : value) (meta : ExpressMeta)
    (entries : list (string * MethodMeta)) (router : Router) : completion Router :=
  match entries with
  | [] => Normal router
  | (methodName, methodMeta) :: rest =>
      match forEach_route controller meta methodName methodMeta
              (method_routes methodMeta) router with
      | Normal router => for_entries controller meta rest router
      | Throw e => Throw e
      end
  end.

(** [registerController], run to the settlement of the promise it returns:
    [Normal] when it is fulfilled, [Throw] when it is rejected.  The
    application and the metadata store are threaded through. *)
Definition registerController (app : list app_call) (Controller : ControllerRef)
    (extractController : ControllerRef -> completion ControllerRef)
    (store : gmap nat ExpressMeta)
    : completion unit * list app_call * gmap nat ExpressMeta :=
  match extractController Controller with
  | Throw e => (Throw e, app, store)
  | Normal controller =>
      let '(meta, store) := getMeta (controller_class controller) store in
      let router := mkRouter (meta_routerOptions meta) [] in
      let routerMiddleware := MiddlewareHandler <$> meta_middleware meta in
      let router :=
        if (length routerMiddleware =? 0)%nat then router
        else mkRouter (router_options router)
               (router_calls router ++ [RouterUse routerMiddleware]) in
      match for_entries (controller_value controller) meta
              (Object_entries (meta_routes meta)) router with
      | Throw e => (Throw e, app, store)
      | Normal router => (Normal tt, app ++ [AppMount (meta_url meta) router], store)
      end
  end.

(** [controllers.map((controller) => registerController(app, controller, c => c))]:
    nothing is awaited but the controller itself, so the registrations run
    one after the other in the order of the list, each to its end. *)
Fixpoint register_each (app : list app_call) (controllers : list ControllerRef)
    (store : gmap nat ExpressMeta)
    : list (completion unit) * list app_call * gmap nat ExpressMeta :=
  match controllers with
  | [] => ([], app, store)
  | controller :: rest =>
      let '(promise, app, store) := registerController app controller Normal store in
      let '(promises, app, store) := register_each app rest store in
      (promise :: promises, app, store)
  end.

(** [Promise.all] of promises that have all settled: rejected with the first
    rejection, fulfilled otherwise. *)
Fixpoint Promise_all (promises : list (completion unit)) : completion unit :=
  match promises with
  | [] => Normal tt
  | Normal _ :: rest => Promise_all rest
  | Throw e :: _ => Throw e
  end.

Definition attachControllersInstances (app : list app_call)
    (controllers : list ControllerRef) (store : gmap nat ExpressMeta)
    : completion unit * list app_call * gmap nat ExpressMeta :=
  let '(promises, app, store) := register_each app controllers store in
  (Promise_all promises, app, store).

End Registration.

Fixpoint attachMiddlewareInstances (app : list app_call) (middlewares : list value)
    : completion unit * list app_call :=
  match middlewares with
  | [] => (Normal tt, app)
  | middleware :: rest =>
      if is_function middleware then
        attachMiddlewareInstances (app ++ [AppUse middleware]) rest
      else
        match get middleware "use" with
        | Normal use => attachMiddlewareInstances (app ++ [AppUse use]) rest
        | Throw e => (Throw e, app)
        end
  end.

(** ** Vocabulary of the statements, registration *)

Section RegistrationVocabulary.

Context `{!Host}.

(** The call a route declaration leads to. *)
Definition route_layer (controller : value) (meta : ExpressMeta)
    (methodName : string) (methodMeta : MethodMeta) (route : Route) : router_call :=
  RouterMember (route_method route) (route_url route)
    ((MiddlewareHandler <$> route_middleware route)
     ++ [RouteHandler controller methodName (meta_params meta !! methodName)
           (method_status methodMeta)]).

(** The calls the route groups of a record lead to, group after group. *)
Definition route_layers (controller : value) (meta : ExpressMeta)
    (entries : list (string * MethodMeta)) : list router_call :=
  entries ≫= (fun entry => route_layer controller meta entry.1 entry.2
                             <$> method_routes entry.2).

(** Every declared route names a function of the router. *)
Definition registrable (meta : ExpressMeta) : Prop :=
  forall name group route,
    meta_routes meta !! name = Some group ->
    route ∈ method_routes group ->
    is_function (router_member (route_method route)) = true.

(** What a controller adds to the application when it is registered alone. *)
Definition mount_of (store : gmap nat ExpressMeta) (controller : ControllerRef)
    : option app_call :=
  match registerController [] controller Normal store with
  | (Normal _, [mount], _) => Some mount
  | _ => None
  end.

End RegistrationVocabulary.

(** A router that has the usual HTTP methods, route groups listed in the
    order of the map, and two controllers. *)
Module DemoHost.

#[global] Instance host : Host := {|
  router_member := fun name =>
    if bool_decide (name ∈ ["get"; "post"; "put"; "delete"; "patch"; "all"])
    then VNative 1 else VUndefined;
  Object_entries := map_to_list;
  Object_entries_spec := fun m => reflexivity _
|}.

Definition users : ControllerRef := mkController 7 Demo.controller.
Definition broken : ControllerRef := mkController 8 Demo.controller.

Definition store : gmap nat ExpressMeta :=
  {[ 7 := mkMeta "/users" VUndefined [Demo.Logger]
            {[ "now" := mkMethodMeta [mkRoute "get" "/" [Demo.plain]] (Some 200%Z) ]}
            {[ "now" := [mkParam 0 REQUEST None] ]};
     8 := mkMeta "/broken" VUndefined []
            {[ "later" := mkMethodMeta [mkRoute "fetch" "/" []] None ]} ∅ ]}.

End DemoHost.

(** * Properties *)

(** ** HTTP errors *)

(** C9. A ConflictError built without a message carries status 409 and the
    empty message; built with message X it carries status 409 and message X;
    the status code is read off the error in both cases. *)
Theorem ConflictError_status_and_message :
  (Errors.status (Errors.ConflictError None) = 409%Z /\
   Errors.message (Errors.ConflictError None) = "") /\
  (forall X : string,
     Errors.status (Errors.ConflictError (Some X)) = 409%Z /\
     Errors.message (Errors.ConflictError (Some X)) = X).
Proof.
  split; [split; reflexivity|].
  intros X. unfold Errors.ConflictError. simpl.
  destruct (String.eqb_spec X "") as [->|Hne]; simpl; split; reflexivity.
Qed.

Example ConflictError_discriminant :
  Errors.name (Errors.ConflictError (Some "X")) = "ConflictError" /\
  Errors.name (Errors.InternalServerError "boom") = "InternalServerError" /\
  Errors.status (Errors.InternalServerError "boom") = 500%Z.
Proof. repeat split. Qed.

(** ** Parameter extraction *)

Lemma length_array_set (a : list value) (i : nat) (v : value) :
  length (array_set a i v) = Nat.max (length a) (S i).
Proof.
  unfold array_set. destruct (Nat.ltb_spec i (length a)).
  - rewrite length_insert. lia.
  - rewrite !length_app, length_replicate. simpl. lia.
Qed.

Lemma array_get_set_eq (a : list value) (i : nat) (v : value) :
  array_get (array_set a i v) i = v.
Proof.
  unfold array_get, array_set. destruct (Nat.ltb_spec i (length a)).
  - by rewrite list_lookup_insert_eq.
  - rewrite lookup_app_r by lia.
    rewrite lookup_app_r by (rewrite length_replicate; lia).
    rewrite length_replicate.
    replace (i - length a - (i - length a)) with 0 by lia. reflexivity.
Qed.

Lemma array_get_set_ne (a : list value) (i j : nat) (v : value) :
  i <> j -> array_get (array_set a i v) j = array_get a j.
Proof.
  intros Hne. unfold array_get, array_set.
  destruct (Nat.ltb_spec i (length a)).
  - by rewrite list_lookup_insert_ne.
  - destruct (Nat.lt_ge_cases j (length a)) as [Hj|Hj].
    + by rewrite lookup_app_l.
    + rewrite (lookup_ge_None_2 a j) by lia.
      rewrite lookup_app_r by lia.
      destruct (Nat.lt_ge_cases j i) as [Hji|Hji].
      * rewrite lookup_app_l by (rewrite length_replicate; lia).
        rewrite lookup_replicate_2 by lia. reflexivity.
      * rewrite lookup_app_r by (rewrite length_replicate; lia).
        rewrite length_replicate.
        rewrite lookup_ge_None_2; [reflexivity|]. simpl. lia.
Qed.

Lemma truthy_not_nullish (v : value) : truthy v = true -> nullish v = false.
Proof. destruct v; simpl; congruence. Qed.

(** Reading a request never throws: the value looked into is the request
    itself or a truthy member of it. *)
Lemma getParam_returns (source : value) (paramType name : option string) :
  nullish source = false ->
  exists v, getParam source paramType name = Normal v.
Proof.
  intros Hs. unfold getParam, get.
  assert (Hget : forall param, nullish param = false ->
            exists v, match name with
                      | Some n => if truthy_str (Some n)
                                  then (if nullish param then Throw (TypeError "Cannot read properties of undefined or null") else Normal (member param n))
                                  else Normal param
                      | None => Normal param
                      end = Normal v).
  { intros param Hp. destruct name as [n|]; [|eauto].
    destruct (truthy_str (Some n)); [|eauto]. rewrite Hp. eauto. }
  destruct paramType as [pt|]; [|by apply Hget].
  destruct (truthy_str (Some pt)); [|by apply Hget].
  rewrite Hs. destruct (truthy (member source pt)) eqn:Ht; apply Hget; [|done].
  by apply truthy_not_nullish.
Qed.

Lemma param_value_returns (req res next : value) (p : ParameterConfiguration) :
  nullish req = false ->
  exists v, param_value req res next p = Normal v.
Proof.
  intros Hreq. unfold param_value.
  destruct (type p); eauto using getParam_returns.
Qed.

Lemma extract_loop_spec (req res next : value) (params : list ParameterConfiguration) :
  nullish req = false ->
  forall args, exists out,
    extract_loop req res next params args = Normal out /\
    length out = foldr (fun p n => Nat.max (S (index p)) n) (length args) params /\
    forall i,
      match last_declared i params with
      | Some p => param_value req res next p = Normal (array_get out i)
      | None => array_get out i = array_get args i
      end.
Proof.
  intros Hreq. induction params as [|p rest IH]; intros args; simpl.
  - exists args. repeat split; auto.
  - destruct (param_value_returns req res next p Hreq) as [v Hv]. rewrite Hv.
    destruct (IH (array_set args (index p) v)) as (out & Hout & Hlen & Hget).
    exists out. split; [exact Hout|]. split.
    + rewrite Hlen. clear. rewrite length_array_set.
      induction rest as [|q rest IH]; simpl; lia.
    + intros i. specialize (Hget i).
      destruct (last_declared i rest) as [q|]; [exact Hget|].
      destruct (Nat.eqb_spec (index p) i) as [<-|Hne].
      * rewrite Hget, array_get_set_eq. exact Hv.
      * rewrite Hget. by apply array_get_set_ne.
Qed.

Lemma last_declared_None (i : nat) (params : list ParameterConfiguration) :
  i ∉ index <$> params -> last_declared i params = None.
Proof.
  induction params as [|p rest IH]; simpl; [done|].
  intros Hi. rewrite not_elem_of_cons in Hi. destruct Hi as [Hne Hi].
  rewrite IH by done. destruct (Nat.eqb_spec (index p) i); congruence.
Qed.

Lemma last_declared_NoDup (p : ParameterConfiguration) (params : list ParameterConfiguration) :
  NoDup (index <$> params) -> p ∈ params -> last_declared (index p) params = Some p.
Proof.
  induction params as [|q rest IH]; simpl; intros Hnd Hin.
  - by apply elem_of_nil in Hin.
  - apply NoDup_cons in Hnd as [Hq Hnd]. apply elem_of_cons in Hin as [->|Hin].
    + rewrite last_declared_None by done. by rewrite Nat.eqb_refl.
    + by rewrite IH.
Qed.

Lemma foldr_max_index_ge (p : ParameterConfiguration) (params : list ParameterConfiguration) (n : nat) :
  p ∈ params -> S (index p) <= foldr (fun p n => Nat.max (S (index p)) n) n params.
Proof.
  induction params as [|q rest IH]; simpl; intros Hin.
  - by apply elem_of_nil in Hin.
  - apply elem_of_cons in Hin as [->|Hin]; [lia|]. specialize (IH Hin). lia.
Qed.

Example extractParameters_default (req res next : value) :
  extractParameters req res next None = Normal [].
Proof. reflexivity. Qed.

Example extractParameters_sparse :
  extractParameters (VObj [("params", VObj [("id", VStr "7")]); ("body", VNum 3)])
    (VHost 1) (VNative 2)
    (Some [mkParam 3 NEXT None; mkParam 0 PARAMS (Some "id"); mkParam 1 BODY None])
  = Normal [VStr "7"; VNum 3; VUndefined; VNative 2].
Proof. reflexivity. Qed.

(** What the returned array holds when every index is declared once. *)
Lemma extractParameters_declared
    (fields : list (string * value)) (res next : value)
    (params : list ParameterConfiguration) :
  NoDup (index <$> params) ->
  exists args,
    extractParameters (VObj fields) res next (Some params) = Normal args /\
    (forall p, p ∈ params ->
       index p + 1 <= length args /\
       match type p with
       | REQUEST => getParam (VObj fields) None (name p)
       | RESPONSE => Normal res
       | NEXT => Normal next
       | PARAMS => getParam (VObj fields) (Some "params") (name p)
       | QUERY => getParam (VObj fields) (Some "query") (name p)
       | BODY => getParam (VObj fields) (Some "body") (name p)
       | HEADERS => getParam (VObj fields) (Some "headers") (name p)
       | COOKIES => getParam (VObj fields) (Some "cookies") (name p)
       end = Normal (array_get args (index p))) /\
    (forall i, i ∉ index <$> params -> array_get args i = VUndefined).
Proof.
  intros Hnd. unfold extractParameters. simpl.
  destruct (extract_loop_spec (VObj fields) res next params eq_refl [])
    as (args & Hrun & Hlen & Hget).
  exists args. split; [exact Hrun|]. split.
  - intros p Hin. split.
    + rewrite Hlen. pose proof (foldr_max_index_ge p params (length (@nil value)) Hin). lia.
    + specialize (Hget (index p)). rewrite (last_declared_NoDup p params Hnd Hin) in Hget.
      unfold param_value in Hget. destruct (type p); exact Hget.
  - intros i Hi. specialize (Hget i). rewrite (last_declared_None i params Hi) in Hget.
    rewrite Hget. reflexivity.
Qed.

(** What [getParam] reads off a request object for a source kind that has a
    sub-object: the sub-object when it is truthy and the request otherwise,
    whole when no name is given, its member of that name when one is. *)
Lemma getParam_of_request (fields : list (string * value)) (key : string)
    (name : option string) :
  key <> "" ->
  getParam (VObj fields) (Some key) name
  = Normal
      (let from := if truthy (member (VObj fields) key)
                   then member (VObj fields) key else VObj fields in
       match name with
       | Some n => if String.eqb n "" then from else member from n
       | None => from
       end).
Proof.
  intros Hkey. unfold getParam, get. simpl.
  destruct (String.eqb_spec key "") as [|_]; [done|]. simpl.
  change (assoc key fields) with (member (VObj fields) key).
  destruct (truthy (member (VObj fields) key)) eqn:Ht.
  - pose proof (truthy_not_nullish _ Ht) as Hsub.
    destruct name as [n|]; [|reflexivity].
    destruct (String.eqb n ""); simpl in *; [reflexivity|].
    by rewrite Hsub.
  - destruct name as [n|]; [|reflexivity].
    by destruct (String.eqb n "").
Qed.

Lemma getParam_of_request_itself (fields : list (string * value)) (name : option string) :
  getParam (VObj fields) None name
  = Normal match name with
           | Some n => if String.eqb n "" then VObj fields else member (VObj fields) n
           | None => VObj fields
           end.
Proof.
  unfold getParam, get. destruct name as [n|]; [|reflexivity].
  simpl. by destruct (String.eqb n "").
Qed.

(** C6. For every declared parameter list [extractParameters] returns an
    array that reaches past every declared index.  The value a declaration
    dispatches to is spelled out by its source kind: the response, the
    continuation, the request, or the request's sub-object of that kind (the
    request itself when that sub-object is missing or falsy), and the member
    of the declared name when a name is given.  Each index holds the value of
    the declaration that wrote it last, so with distinct indices (as the data
    model requires) each declared parameter finds its own value at its
    index; an index nobody declared reads [undefined]. *)
Theorem extractParameters_positional
    (fields : list (string * value)) (res next : value)
    (params : list ParameterConfiguration) :
  let req := VObj fields in
  let sub (key : string) :=
    if truthy (member req key) then member req key else req in
  let pick (from : value) (name : option string) :=
    match name with
    | Some n => if String.eqb n "" then from else member from n
    | None => from
    end in
  let dispatched (p : ParameterConfiguration) :=
    match type p with
    | REQUEST => pick req (name p)
    | RESPONSE => res
    | NEXT => next
    | PARAMS => pick (sub "params") (name p)
    | QUERY => pick (sub "query") (name p)
    | BODY => pick (sub "body") (name p)
    | HEADERS => pick (sub "headers") (name p)
    | COOKIES => pick (sub "cookies") (name p)
    end in
  exists args,
    extractParameters req res next (Some params) = Normal args /\
    (forall p, p ∈ params -> index p + 1 <= length args) /\
    (forall i,
       array_get args i = match last_declared i params with
                          | Some p => dispatched p
                          | None => VUndefined
                          end) /\
    (NoDup (index <$> params) ->
     forall p, p ∈ params -> array_get args (index p) = dispatched p) /\
    (forall i, i ∉ index <$> params -> array_get args i = VUndefined).
Proof.
  intros req sub pick dispatched.
  assert (Hvalue : forall p, param_value req res next p = Normal (dispatched p)).
  { intros p. unfold param_value, dispatched, pick, sub, req.
    destruct (type p); first [reflexivity
                             | apply getParam_of_request_itself
                             | by apply getParam_of_request]. }
  unfold extractParameters. simpl.
  destruct (extract_loop_spec req res next params eq_refl [])
    as (args & Hrun & Hlen & Hget).
  assert (Hlast : forall i,
            array_get args i = match last_declared i params with
                               | Some p => dispatched p
                               | None => VUndefined
                               end).
  { intros i. specialize (Hget i). destruct (last_declared i params) as [p|].
    - rewrite Hvalue in Hget. by injection Hget as <-.
    - exact Hget. }
  exists args. split; [exact Hrun|]. split; [|split; [exact Hlast|split]].
  - intros p Hin. rewrite Hlen.
    pose proof (foldr_max_index_ge p params (length (@nil value)) Hin). lia.
  - intros Hnd p Hin. by rewrite Hlast, (last_declared_NoDup p params Hnd Hin).
  - intros i Hi. by rewrite Hlast, (last_declared_None i params Hi).
Qed.

Lemma extractParameters_positional_witness :
  exists args,
    extractParameters
      (VObj [("query", VObj [("q", VStr "a")]); ("sid", VStr "s1")]) (VHost 1) (VNative 2)
      (Some [mkParam 3 RESPONSE None; mkParam 0 QUERY (Some "q");
             mkParam 1 COOKIES (Some "sid")]) = Normal args /\
    4 <= length args /\
    array_get args 0 = VStr "a" /\
    array_get args 1 = VStr "s1" /\
    array_get args 2 = VUndefined /\
    array_get args 3 = VHost 1.
Proof.
  destruct (extractParameters_positional
              [("query", VObj [("q", VStr "a")]); ("sid", VStr "s1")] (VHost 1) (VNative 2)
              [mkParam 3 RESPONSE None; mkParam 0 QUERY (Some "q");
               mkParam 1 COOKIES (Some "sid")])
    as (args & Hrun & Hlen & _ & Hdecl & Hfree).
  assert (Hnd : NoDup (index <$> [mkParam 3 RESPONSE None; mkParam 0 QUERY (Some "q");
                                  mkParam 1 COOKIES (Some "sid")])).
  { apply (bool_decide_unpack _). vm_compute. exact I. }
  exists args. split; [exact Hrun|]. split; [|split; [|split; [|split]]].
  - apply (Hlen (mkParam 3 RESPONSE None)). apply list_elem_of_here.
  - apply (Hdecl Hnd (mkParam 0 QUERY (Some "q"))).
    apply list_elem_of_further, list_elem_of_here.
  - apply (Hdecl Hnd (mkParam 1 COOKIES (Some "sid"))).
    do 2 apply list_elem_of_further. apply list_elem_of_here.
  - apply Hfree. apply (bool_decide_unpack _). vm_compute. exact I.
  - apply (Hdecl Hnd (mkParam 3 RESPONSE None)). apply list_elem_of_here.
Defined.

(** Later declarations of an index overwrite earlier ones. *)
Example extractParameters_same_index :
  extractParameters (VObj []) (VHost 1) (VNative 2)
    (Some [mkParam 0 RESPONSE None; mkParam 0 NEXT None])
  = Normal [VNative 2].
Proof. reflexivity. Qed.

Example getParam_cookie_fallback :
  getParam (VObj [("sid", VStr "on-request")]) (Some "cookies") (Some "sid")
  = Normal (VStr "on-request").
Proof. reflexivity. Qed.

(** C7. When the request has no sub-object for a named-source parameter
    (no [cookies], say), the parameter's name is read from the request object
    itself: [getParam] returns that member, and [extractParameters] returns
    normally with it at the parameter's index. *)
Theorem missing_subobject_falls_back_to_request
    (fields : list (string * value)) (res next : value)
    (params : list ParameterConfiguration) (p : ParameterConfiguration)
    (key n : string) :
  (type p, key) ∈ [(PARAMS, "params"); (QUERY, "query"); (BODY, "body");
                   (HEADERS, "headers"); (COOKIES, "cookies")] ->
  name p = Some n -> n <> "" ->
  member (VObj fields) key = VUndefined ->
  NoDup (index <$> params) -> p ∈ params ->
  getParam (VObj fields) (Some key) (Some n) = Normal (member (VObj fields) n) /\
  exists args,
    extractParameters (VObj fields) res next (Some params) = Normal args /\
    array_get args (index p) = member (VObj fields) n.
Proof.
  intros Hkind Hname Hn Hmiss Hnd Hin.
  assert (Hkey : key <> "").
  { rewrite !elem_of_cons in Hkind. rewrite elem_of_nil in Hkind.
    destruct Hkind as [H|[H|[H|[H|[H|[]]]]]]; inversion H; done. }
  assert (Hgp : getParam (VObj fields) (Some key) (Some n) = Normal (member (VObj fields) n)).
  { unfold getParam, get. simpl.
    destruct (String.eqb_spec key "") as [|_]; [done|]. simpl.
    change (assoc key fields) with (member (VObj fields) key). rewrite Hmiss. simpl.
    destruct (String.eqb_spec n "") as [|_]; [done|]. reflexivity. }
  split; [exact Hgp|].
  destruct (extractParameters_declared fields res next params Hnd)
    as (args & Hrun & Hdecl & _).
  exists args. split; [exact Hrun|].
  destruct (Hdecl p Hin) as [_ Hval]. rewrite Hname in Hval.
  rewrite !elem_of_cons in Hkind. rewrite elem_of_nil in Hkind.
  destruct Hkind as [H|[H|[H|[H|[H|[]]]]]]; inversion H as [[Hty Hk]];
    rewrite Hty in Hval; subst key; rewrite Hgp in Hval; congruence.
Qed.

Lemma missing_subobject_falls_back_to_request_witness :
  getParam (VObj [("sid", VStr "s1")]) (Some "cookies") (Some "sid")
    = Normal (member (VObj [("sid", VStr "s1")]) "sid") /\
  exists args,
    extractParameters (VObj [("sid", VStr "s1")]) (VHost 1) (VNative 2)
      (Some [mkParam 0 COOKIES (Some "sid")]) = Normal args /\
    array_get args (index (mkParam 0 COOKIES (Some "sid")))
      = member (VObj [("sid", VStr "s1")]) "sid".
Proof.
  apply (missing_subobject_falls_back_to_request
           [("sid", VStr "s1")] (VHost 1) (VNative 2)
           [mkParam 0 COOKIES (Some "sid")] (mkParam 0 COOKIES (Some "sid"))
           "cookies" "sid").
  - do 4 apply list_elem_of_further. apply list_elem_of_here.
  - reflexivity.
  - discriminate.
  - reflexivity.
  - apply (bool_decide_unpack _). vm_compute. exact I.
  - apply list_elem_of_here.
Defined.

(** ** Middleware attachment *)

Lemma getMeta_idempotent (target : nat) (store : gmap nat ExpressMeta) :
  getMeta target (snd (getMeta target store)) = getMeta target store.
Proof.
  unfold getMeta. destruct (store !! target) as [meta|] eqn:Hl; simpl.
  - by rewrite Hl.
  - by rewrite lookup_insert_eq.
Qed.

Lemma getMeta_lookup (target : nat) (store : gmap nat ExpressMeta) :
  snd (getMeta target store) !! target = Some (fst (getMeta target store)).
Proof.
  unfold getMeta. destruct (store !! target) as [meta|] eqn:Hl; simpl; [done|].
  by rewrite lookup_insert_eq.
Qed.

Lemma getMeta_insert (target : nat) (meta : ExpressMeta) (store : gmap nat ExpressMeta) :
  fst (getMeta target (<[target := meta]> store)) = meta.
Proof. unfold getMeta. by rewrite lookup_insert_eq. Qed.

Example attachMiddleware_root_path :
  fst (getMeta 7
         (snd (attachMiddleware (TargetFunction 7) None (VFun 2 [])
                 {[ 7 := mkMeta "/" VUndefined [VFun 1 []] ∅ ∅ ]})))
  = mkMeta "/" VUndefined [VFun 2 []; VFun 1 []] ∅ ∅.
Proof. vm_compute. reflexivity. Qed.

(** C3, as stated, fails: on metadata whose base path is empty and whose
    controller-level list is [A], attaching B (with no method name) leaves the
    list at [A]. *)
Lemma attachMiddleware_empty_path_keeps_controller_list :
  meta_url (mkMeta "" VUndefined [VFun 1 []] ∅ ∅) = "" /\
  meta_middleware
    (fst (getMeta 7
            (snd (attachMiddleware (TargetFunction 7) None (VFun 2 [])
                    {[ 7 := mkMeta "" VUndefined [VFun 1 []] ∅ ∅ ]}))))
  = [VFun 1 []] /\
  meta_middleware
    (fst (getMeta 7
            (snd (attachMiddleware (TargetFunction 7) None (VFun 2 [])
                    {[ 7 := mkMeta "" VUndefined [VFun 1 []] ∅ ∅ ]}))))
  <> [VFun 2 []; VFun 1 []].
Proof.
  split; [reflexivity|].
  assert (Heq : meta_middleware
    (fst (getMeta 7
            (snd (attachMiddleware (TargetFunction 7) None (VFun 2 [])
                    {[ 7 := mkMeta "" VUndefined [VFun 1 []] ∅ ∅ ]}))))
    = [VFun 1 []]) by (vm_compute; reflexivity).
  split; [exact Heq|]. rewrite Heq. discriminate.
Qed.

(** C3, amended. When the base path in the metadata is not empty (the root
    path "/" included), [attachMiddleware] puts the middleware at the front of
    the controller-level list, whatever method name is given, and leaves the
    routes alone.  When the base path is empty and the method name names a
    declared route group with a first route declaration, it puts the
    middleware at the front of that declaration's list and leaves the
    controller-level list alone. *)
Theorem attachMiddleware_prepends
    (target : Target) (property : option string) (B : value)
    (store : gmap nat ExpressMeta) :
  let meta := fst (getMeta (targetClass target) store) in
  (meta_url meta <> "" ->
   exists store',
     attachMiddleware target property B store = (Normal tt, store') /\
     fst (getMeta (targetClass target) store')
       = with_middleware (B :: meta_middleware meta) meta) /\
  (meta_url meta = "" ->
   forall (p : string) (group : MethodMeta) (route0 : Route) (others : list Route),
     property = Some p -> p <> "" ->
     meta_routes meta !! p = Some group ->
     method_routes group = route0 :: others ->
     exists store',
       attachMiddleware target property B store = (Normal tt, store') /\
       fst (getMeta (targetClass target) store')
         = with_routes
             (<[p := {| method_routes := route_unshift B route0 :: others;
                        method_status := method_status group |}]> (meta_routes meta))
             meta).
Proof.
  intros meta. subst meta. unfold attachMiddleware.
  destruct (getMeta (targetClass target) store) as [meta store1] eqn:Hgm. simpl.
  split.
  - intros Hurl. destruct (String.eqb_spec (meta_url meta) "") as [|_]; [done|]. simpl.
    eexists. split; [reflexivity|]. apply getMeta_insert.
  - intros Hurl p group route0 others -> Hp Hgroup Hroutes.
    rewrite Hurl. simpl.
    destruct (String.eqb_spec p "") as [|_]; [done|]. simpl.
    unfold in_routes. rewrite Hgroup, Hroutes.
    eexists. split; [reflexivity|]. apply getMeta_insert.
Qed.

Lemma attachMiddleware_prepends_witness :
  (exists store',
     attachMiddleware (TargetFunction 7) None (VFun 2 [])
       {[ 7 := mkMeta "/" VUndefined [VFun 1 []] ∅ ∅ ]} = (Normal tt, store') /\
     meta_middleware (fst (getMeta 7 store')) = [VFun 2 []; VFun 1 []]) /\
  (exists store',
     attachMiddleware (TargetObject 7) (Some "list") (VFun 2 [])
       {[ 7 := mkMeta "" VUndefined []
                 {[ "list" := mkMethodMeta [mkRoute "get" "/" [VFun 1 []]] None ]} ∅ ]}
       = (Normal tt, store') /\
     (method_routes <$> meta_routes (fst (getMeta 7 store')) !! "list")
       = Some [mkRoute "get" "/" [VFun 2 []; VFun 1 []]]).
Proof.
  split.
  - destruct (proj1 (attachMiddleware_prepends (TargetFunction 7) None (VFun 2 [])
                       {[ 7 := mkMeta "/" VUndefined [VFun 1 []] ∅ ∅ ]}))
      as (store' & Hrun & Hmeta).
    + vm_compute. discriminate.
    + exists store'. split; [exact Hrun|].
      unfold targetClass in Hmeta. rewrite Hmeta. vm_compute. reflexivity.
  - pose proof (attachMiddleware_prepends (TargetObject 7) (Some "list") (VFun 2 [])
                  {[ 7 := mkMeta "" VUndefined []
                            {[ "list" := mkMethodMeta [mkRoute "get" "/" [VFun 1 []]] None ]} ∅ ]})
      as [_ Hroute].
    destruct (Hroute ltac:(vm_compute; reflexivity)
                "list" (mkMethodMeta [mkRoute "get" "/" [VFun 1 []]] None)
                (mkRoute "get" "/" [VFun 1 []]) []
                eq_refl ltac:(discriminate) ltac:(vm_compute; reflexivity) eq_refl)
      as (store' & Hrun & Hmeta).
    exists store'. split; [exact Hrun|].
    unfold targetClass in Hmeta. rewrite Hmeta. vm_compute. reflexivity.
Defined.

(** A declared route group with no route declaration makes the attachment
    throw: [routes[0]] is [undefined]. *)
Example attachMiddleware_empty_group :
  fst (attachMiddleware (TargetObject 7) (Some "list") (VFun 2 [])
         {[ 7 := mkMeta "" VUndefined [] {[ "list" := mkMethodMeta [] None ]} ∅ ]})
  = Throw (TypeError "Cannot read properties of undefined (reading 'middleware')").
Proof. vm_compute. reflexivity. Qed.

(** C8, as stated, fails: with a base path that is not empty, a method name
    that names no route group still changes the metadata (the controller-level
    list gains the middleware). *)
Lemma attachMiddleware_unknown_method_changes_metadata :
  meta_routes (mkMeta "/api" VUndefined [] ∅ ∅) !! "missing" = None /\
  fst (getMeta 7
         (snd (attachMiddleware (TargetFunction 7) (Some "missing") (VFun 2 [])
                 {[ 7 := mkMeta "/api" VUndefined [] ∅ ∅ ]})))
  = mkMeta "/api" VUndefined [VFun 2 []] ∅ ∅ /\
  fst (getMeta 7
         (snd (attachMiddleware (TargetFunction 7) (Some "missing") (VFun 2 [])
                 {[ 7 := mkMeta "/api" VUndefined [] ∅ ∅ ]})))
  <> mkMeta "/api" VUndefined [] ∅ ∅.
Proof.
  split; [reflexivity|].
  assert (Heq : fst (getMeta 7
         (snd (attachMiddleware (TargetFunction 7) (Some "missing") (VFun 2 [])
                 {[ 7 := mkMeta "/api" VUndefined [] ∅ ∅ ]})))
    = mkMeta "/api" VUndefined [VFun 2 []] ∅ ∅) by (vm_compute; reflexivity).
  split; [exact Heq|]. rewrite Heq. intros H. inversion H.
Qed.

(** With an empty base path, a name that the routes object only inherits
    passes the [in] test, and the attachment throws. *)
Example attachMiddleware_inherited_name :
  fst (attachMiddleware (TargetObject 7) (Some "toString") (VFun 2 [])
         {[ 7 := mkMeta "" VUndefined [] {[ "list" := mkMethodMeta [] None ]} ∅ ]})
  = Throw (TypeError "Cannot read properties of undefined (reading '0')").
Proof. vm_compute. reflexivity. Qed.

(** C8, amended. When the base path in the metadata is empty, a method name
    that is no property of the routes object (it names no declared route
    group, and is not one of the names every object inherits) makes
    [attachMiddleware] return normally and leave the metadata as it was: the
    store is the one [getMeta] gives back, and the record of the target is
    the same. *)
Theorem attachMiddleware_unknown_method_noop
    (target : Target) (p : string) (B : value) (store : gmap nat ExpressMeta) :
  meta_url (fst (getMeta (targetClass target) store)) = "" ->
  meta_routes (fst (getMeta (targetClass target) store)) !! p = None ->
  p ∉ Object_prototype_names ->
  attachMiddleware target (Some p) B store
    = (Normal tt, snd (getMeta (targetClass target) store)) /\
  getMeta (targetClass target) (snd (attachMiddleware target (Some p) B store))
    = getMeta (targetClass target) store /\
  (forall meta, store !! targetClass target = Some meta ->
     snd (attachMiddleware target (Some p) B store) = store).
Proof.
  intros Hurl Hroutes Hown.
  assert (Hrun : attachMiddleware target (Some p) B store
                 = (Normal tt, snd (getMeta (targetClass target) store))).
  { unfold attachMiddleware.
    destruct (getMeta (targetClass target) store) as [meta store1] eqn:Hgm.
    simpl in *. rewrite Hurl. simpl.
    unfold in_routes. rewrite Hroutes, bool_decide_eq_false_2 by done.
    by rewrite andb_false_r. }
  rewrite Hrun. simpl. split; [reflexivity|]. split.
  - apply getMeta_idempotent.
  - intros meta Hl. unfold getMeta. by rewrite Hl.
Qed.

Lemma attachMiddleware_unknown_method_noop_witness :
  attachMiddleware (TargetFunction 7) (Some "missing") (VFun 2 [])
    {[ 7 := mkMeta "" VUndefined [VFun 1 []] ∅ ∅ ]}
  = (Normal tt, snd (getMeta 7 {[ 7 := mkMeta "" VUndefined [VFun 1 []] ∅ ∅ ]})).
Proof.
  apply (attachMiddleware_unknown_method_noop (TargetFunction 7) "missing" (VFun 2 [])
           {[ 7 := mkMeta "" VUndefined [VFun 1 []] ∅ ∅ ]}).
  - vm_compute. reflexivity.
  - vm_compute. reflexivity.
  - apply (bool_decide_unpack _). vm_compute. exact I.
Defined.

(** ** The effect monad *)

Section EffectFacts.

Context {E : Type} `{!Outside E}.

Lemma bind_Normal_inv {A B : Type} (m : M E A) (k : A -> M E B) (w w' : world E) (b : B) :
  bind m k w = (Normal b, w') ->
  exists a wa, m w = (Normal a, wa) /\ k a wa = (Normal b, w').
Proof.
  unfold bind. destruct (m w) as [[a|e] wa]; [eauto|discriminate].
Qed.

(** Calls into application code or the framework leave the adapter's own
    state alone: no object is allocated, no reaction is registered. *)
Lemma call_frame (f this : value) (args : list value) (w : world E) :
  next_oid (snd (call f this args w)) = next_oid w /\
  reactions (snd (call f this args w)) = reactions w.
Proof.
  unfold call, framework_call, emit, bind, ret, throw, set_outside.
  destruct f; simpl; auto.
  destruct (apply_fn _ _ _ _); simpl; auto.
Qed.

Lemma call_member_frame (f this : value) (args : list value) (w : world E) :
  next_oid (snd (call_member f this args w)) = next_oid w /\
  reactions (snd (call_member f this args w)) = reactions w.
Proof.
  unfold call_member. destruct (nullish f); [by simpl|].
  destruct (is_function f); [apply call_frame|by simpl].
Qed.

(** A call that returns has left one entry in the trace. *)
Lemma call_member_trace (f this : value) (args : list value) (w w' : world E) (v : value) :
  call_member f this args w = (Normal v, w') ->
  trace w' = trace w ++ [ECall f this args].
Proof.
  unfold call_member, call, framework_call, emit, bind, ret, throw, set_outside.
  destruct f; simpl; try discriminate.
  - destruct (apply_fn _ _ _ _) as [c o]. intros Hc. by injection Hc as _ <-.
  - intros Hc. by injection Hc as _ <-.
Qed.

(** What calling a continuation of the framework does. *)
Lemma call_native (n : nat) (this : value) (args : list value) (w : world E) :
  call (VNative n) this args w
  = (Normal VUndefined,
     mkWorld (framework (ECall (VNative n) this args) (outside w))
       (next_oid w) (reactions w) (trace w ++ [ECall (VNative n) this args])).
Proof. reflexivity. Qed.

Lemma chains_on_app (p : nat) (o : E) (n : nat) (rs rs' : list (nat * list reaction))
    (t : list event) :
  chains_on p (mkWorld o n (rs ++ rs') t)
  = chains_on p (mkWorld o n rs t) ++ chains_on p (mkWorld o n rs' t).
Proof. unfold chains_on. simpl. by rewrite filter_app, fmap_app. Qed.

Lemma chains_on_reactions (p : nat) (w w' : world E) :
  reactions w = reactions w' -> chains_on p w = chains_on p w'.
Proof. unfold chains_on. by intros ->. Qed.

End EffectFacts.

(** ** Generated route handlers *)

Section RouteHandlerFacts.

Context {E : Type} `{!Outside E}.

(** A handler that returned the promise [p] has registered its chain on [p],
    after whatever was registered before. *)
Lemma routeHandler_registers
    (controller : value) (methodName : string)
    (params : option (list ParameterConfiguration)) (status : option Z)
    (req res next : value) (p : nat) (w0 w1 : world E) :
  routeHandler controller methodName params status req res next w0
    = (Normal (VPromise p), w1) ->
  chains_on p w1 = chains_on p w0 ++ [route_chain res status next].
Proof.
  unfold routeHandler. intros Hrun.
  apply bind_Normal_inv in Hrun as (args & wa & Hargs & Hrun).
  apply bind_Normal_inv in Hrun as (method & wb & Hmethod & Hrun).
  apply bind_Normal_inv in Hrun as (result & wc & Hcall & Hrun).
  apply bind_Normal_inv in Hrun as (u & wd & Hbranch & Hret).
  unfold lift in Hargs, Hmethod. unfold ret in Hret.
  injection Hargs as _ <-. injection Hmethod as _ <-. injection Hret as -> <-.
  pose proof (call_member_frame method controller args w0) as [_ Hreact].
  rewrite Hcall in Hreact. simpl in Hreact, Hbranch.
  injection Hbranch as _ <-.
  destruct wc as [o n rs t]. simpl in *. subst rs.
  rewrite chains_on_app.
  rewrite (chains_on_reactions p (mkWorld o n (reactions w0) t) w0 eq_refl).
  f_equal. unfold chains_on. simpl. rewrite filter_cons_True by done. reflexivity.
Qed.

(** Such a handler has done nothing itself but call the controller method. *)
Lemma routeHandler_promise_trace
    (controller : value) (methodName : string)
    (params : option (list ParameterConfiguration)) (status : option Z)
    (req res next : value) (p : nat) (w0 w1 : world E) :
  routeHandler controller methodName params status req res next w0
    = (Normal (VPromise p), w1) ->
  exists method args, trace w1 = trace w0 ++ [ECall method controller args].
Proof.
  unfold routeHandler. intros Hrun.
  apply bind_Normal_inv in Hrun as (args & wa & Hargs & Hrun).
  apply bind_Normal_inv in Hrun as (method & wb & Hmethod & Hrun).
  apply bind_Normal_inv in Hrun as (result & wc & Hcall & Hrun).
  apply bind_Normal_inv in Hrun as (u & wd & Hbranch & Hret).
  unfold lift in Hargs, Hmethod. unfold ret in Hret.
  injection Hargs as _ <-. injection Hmethod as _ <-. injection Hret as -> <-.
  apply call_member_trace in Hcall. simpl in Hbranch. injection Hbranch as _ <-.
  exists method, args. exact Hcall.
Qed.

(** Settling a promise that carries one chain runs that chain. *)
Lemma settle_one_chain (p : nat) (s : settled) (chain : list reaction) (w : world E) :
  chains_on p w = [chain] ->
  settle p s w
  = snd ((s' <- run_chain chain s ;; chain_end s')
           (mkWorld (outside w) (next_oid w)
              (filter (fun qc => fst qc <> p) (reactions w)) (trace w))).
Proof.
  intros Hon. unfold settle. rewrite Hon. simpl. unfold bind, ret.
  destruct (run_chain chain s _) as [[s'|e] w1]; [|reflexivity].
  destruct (chain_end s' w1) as [[[]|e] w2]; reflexivity.
Qed.

Lemma run_route_chain_fulfilled (res : value) (status : option Z) (next V : value)
    (w : world E) :
  trace (snd ((s' <- run_chain (route_chain res status next) (Fulfilled V) ;; chain_end s') w))
  = trace w ++
      (if negb (headersSent res (outside w)) && negb (is_undefined V)
       then (if truthy_num status then [EStatus res (default 0%Z status)] else [])
            ++ [ESend res V]
       else []).
Proof.
  unfold route_chain, run_chain, react, run_callback, onResult, async, chain_end,
    res_headersSent, res_status, res_send, framework_call, emit, bind, ret, set_outside.
  simpl.
  destruct (negb (headersSent res (outside w)) && negb (is_undefined V)); simpl.
  - destruct (truthy_num status); simpl; by rewrite <- ?app_assoc.
  - by rewrite app_nil_r.
Qed.

Lemma run_route_chain_rejected (res : value) (status : option Z) (n : nat) (Err : value)
    (w : world E) :
  trace (snd ((s' <- run_chain (route_chain res status (VNative n)) (Rejected Err) ;;
               chain_end s') w))
  = trace w ++ [ECall (VNative n) VUndefined [Err]].
Proof. reflexivity. Qed.

End RouteHandlerFacts.

Section RouteHandlerProperties.

Context {E : Type} `{!Outside E}.

(** C1. A handler whose controller method returned the pending promise [p]
    (on which nothing else was registered) has itself only called that
    method.  It reacts to the resolution of [p] with a defined value V, in
    any world [w] met at resolution time where the response's headers-sent
    flag is false, by one call of [send] with V, preceded by the call of
    [status] with the declared status code when one was declared (a code of
    0, which JavaScript takes for false, counts as none); when V is
    [undefined] or the headers are already sent it calls nothing. *)
Theorem routeHandler_sends_resolved_value
    (controller : value) (methodName : string)
    (params : option (list ParameterConfiguration)) (status : option Z)
    (req res next : value) (p : nat) (w0 w1 w : world E) (V : value) :
  routeHandler controller methodName params status req res next w0
    = (Normal (VPromise p), w1) ->
  chains_on p w0 = [] ->
  chains_on p w = chains_on p w1 ->
  (exists method args, trace w1 = trace w0 ++ [ECall method controller args]) /\
  (headersSent res (outside w) = false -> V <> VUndefined ->
     (status = None ->
        trace (settle p (Fulfilled V) w) = trace w ++ [ESend res V]) /\
     (forall code, status = Some code -> code <> 0%Z ->
        trace (settle p (Fulfilled V) w) = trace w ++ [EStatus res code; ESend res V])) /\
  (headersSent res (outside w) = true \/ V = VUndefined ->
     trace (settle p (Fulfilled V) w) = trace w).
Proof.
  intros Hrun Hfresh Hsame.
  split; [by eapply routeHandler_promise_trace|].
  apply routeHandler_registers in Hrun. rewrite Hfresh in Hrun. simpl in Hrun.
  rewrite Hrun in Hsame.
  rewrite (settle_one_chain p (Fulfilled V) _ w Hsame).
  rewrite run_route_chain_fulfilled. simpl.
  split.
  - intros Hsent HV. rewrite Hsent.
    assert (is_undefined V = false) as -> by (destruct V; simpl; congruence).
    simpl. split.
    + by intros ->.
    + intros code -> Hcode. simpl. destruct (Z.eqb_spec code 0); [done|]. reflexivity.
  - intros [Hsent| ->].
    + rewrite Hsent. simpl. by rewrite app_nil_r.
    + rewrite andb_false_r. by rewrite app_nil_r.
Qed.

(** C2. A handler whose controller method returned the promise [p] has itself
    only called that method; it reacts to the rejection of [p] with E by one
    call of [next] with E, and by nothing else: no call of [send]. *)
Theorem routeHandler_forwards_rejection
    (controller : value) (methodName : string)
    (params : option (list ParameterConfiguration)) (status : option Z)
    (req res : value) (n p : nat) (w0 w1 w : world E) (Err : value) :
  routeHandler controller methodName params status req res (VNative n) w0
    = (Normal (VPromise p), w1) ->
  chains_on p w0 = [] ->
  chains_on p w = chains_on p w1 ->
  (exists method args, trace w1 = trace w0 ++ [ECall method controller args]) /\
  trace (settle p (Rejected Err) w) = trace w ++ [ECall (VNative n) VUndefined [Err]].
Proof.
  intros Hrun Hfresh Hsame.
  split; [by eapply routeHandler_promise_trace|].
  apply routeHandler_registers in Hrun. rewrite Hfresh in Hrun. simpl in Hrun.
  rewrite Hrun in Hsame.
  rewrite (settle_one_chain p (Rejected Err) _ w Hsame).
  by rewrite run_route_chain_rejected.
Qed.

End RouteHandlerProperties.

Example routeHandler_immediate_value :
  trace (snd (routeHandler Demo.controller "now" None (Some 201%Z)
                Demo.req Demo.res Demo.next Demo.start))
  = [ECall (VFun 3 []) Demo.controller [];
     EStatus Demo.res 201; ESend Demo.res (VStr "ok")].
Proof. reflexivity. Qed.

(** A declared status of 0 is falsy: the handler treats it as not declared. *)
Example routeHandler_status_zero :
  trace (settle 5 (Fulfilled (VStr "v"))
           (snd (routeHandler Demo.controller "later" None (Some 0%Z)
                   Demo.req Demo.res Demo.next Demo.start)))
  = [ECall (VFun 2 []) Demo.controller []; ESend Demo.res (VStr "v")].
Proof. reflexivity. Qed.

Lemma routeHandler_sends_resolved_value_witness :
  trace (settle 5 (Fulfilled (VStr "v"))
           (snd (routeHandler Demo.controller "later" None (Some 201%Z)
                   Demo.req Demo.res Demo.next Demo.start)))
  = trace (snd (routeHandler Demo.controller "later" None (Some 201%Z)
                  Demo.req Demo.res Demo.next Demo.start))
    ++ [EStatus Demo.res 201; ESend Demo.res (VStr "v")].
Proof.
  refine (proj2 (proj1 (proj2 (routeHandler_sends_resolved_value
                         Demo.controller "later" None (Some 201%Z)
                         Demo.req Demo.res Demo.next 5 Demo.start
                         (snd (routeHandler Demo.controller "later" None (Some 201%Z)
                                 Demo.req Demo.res Demo.next Demo.start))
                         (snd (routeHandler Demo.controller "later" None (Some 201%Z)
                                 Demo.req Demo.res Demo.next Demo.start))
                         (VStr "v") _ _ _))
                  _ _)
           201%Z _ _).
  - reflexivity.
  - reflexivity.
  - reflexivity.
  - reflexivity.
  - discriminate.
  - reflexivity.
  - lia.
Defined.

Lemma routeHandler_forwards_rejection_witness :
  trace (settle 5 (Rejected Demo.boom)
           (snd (routeHandler Demo.controller "later" None None
                   Demo.req Demo.res (VNative 0) Demo.start)))
  = trace (snd (routeHandler Demo.controller "later" None None
                  Demo.req Demo.res (VNative 0) Demo.start))
    ++ [ECall (VNative 0) VUndefined [Demo.boom]].
Proof.
  refine (proj2 (routeHandler_forwards_rejection
           Demo.controller "later" None None Demo.req Demo.res 0 5 Demo.start
           (snd (routeHandler Demo.controller "later" None None
                   Demo.req Demo.res (VNative 0) Demo.start))
           (snd (routeHandler Demo.controller "later" None None
                   Demo.req Demo.res (VNative 0) Demo.start))
           Demo.boom _ _ _)); reflexivity.
Defined.

(** ** Middleware handlers *)

Section MiddlewareFacts.

Context {E : Type} `{!Outside E}.

Lemma truthy_not_function (v : value) : truthy v = false -> is_function v = false.
Proof. destruct v; simpl; intros Ht; first [reflexivity | discriminate Ht]. Qed.

Lemma char_at_not_function (k : string) (s : string) (i f : nat)
    (props : list (string * value)) :
  char_at k i s <> VFun f props.
Proof.
  revert i. induction s as [|c s IH]; intros i; simpl; [discriminate|].
  destruct (String.eqb k (index_key i)); [discriminate|apply IH].
Qed.

(** A prototype that has a [use] function is an object. *)
Lemma member_use_is_object (proto : value) (u : nat) (up : list (string * value)) :
  member proto "use" = VFun u up -> is_object proto = true.
Proof.
  destruct proto; simpl; intros Hm; first [reflexivity | discriminate Hm | idtac].
  by apply char_at_not_function in Hm.
Qed.

(** What the handler of a middleware class does, step by step: construct,
    call [use] on the new instance with the handler's own arguments, forward
    what is thrown, listen to a promise that comes back. *)
Lemma middlewareHandler_class (f : nat) (props : list (string * value)) (proto : value)
    (u : nat) (up : list (string * value)) (req res : value) (n : nat) (w : world E) :
  member (VFun f props) "prototype" = proto ->
  member proto "use" = VFun u up ->
  middlewareHandler (VFun f props) req res (VNative n) w
  = let mw := VFun f props in
    let inst := VInst (next_oid w) proto in
    let args := [req; res; VNative n] in
    match constructor mw inst (outside w) with
    | (Throw e, o1) =>
        (Normal VUndefined,
         mkWorld (framework (forwarded n e) o1) (S (next_oid w)) (reactions w)
           (trace w ++ [ENew mw inst; forwarded n e]))
    | (Normal _, o1) =>
        match apply_fn (VFun u up) inst args o1 with
        | (Throw e, o2) =>
            (Normal VUndefined,
             mkWorld (framework (forwarded n e) o2) (S (next_oid w)) (reactions w)
               (trace w ++ [ENew mw inst; ECall (VFun u up) inst args; forwarded n e]))
        | (Normal r, o2) =>
            (Normal VUndefined,
             mkWorld o2 (S (next_oid w))
               match r with
               | VPromise p => reactions w ++ [(p, [OnRejected (Continuation (VNative n))])]
               | _ => reactions w
               end
               (trace w ++ [ENew mw inst; ECall (VFun u up) inst args]))
        end
    end.
Proof.
  intros Hproto Huse. pose proof (member_use_is_object _ _ _ Huse) as Hobj.
  assert (Hnn : nullish proto = false) by (by destruct proto).
  unfold middlewareHandler, invokeMiddleware, getMiddlewareInstance, new, forwarded.
  unfold bind, async, await, try_catch, react, run_callback, chain_end, ret, throw.
  simpl is_function. cbv iota. rewrite Hproto.
  unfold get_opt at 1. rewrite Hnn, Huse, Hobj. simpl.
  destruct (constructor _ _ _) as [[[]|e] o1]; simpl.
  - unfold get_opt. simpl. rewrite Hnn, Huse. simpl.
    unfold call_member, call, emit, bind, ret, set_outside. simpl.
    destruct (apply_fn _ _ _ _) as [[r|e] o2]; simpl.
    + destruct r; simpl; by rewrite <- ?app_assoc.
    + by rewrite <- !app_assoc.
  - by rewrite <- !app_assoc.
Qed.

(** What the handler of a middleware function without [prototype.use] does:
    it calls the function, or the [use] member the function object has of its
    own, with the function as [this]. *)
Lemma middlewareHandler_function (f : nat) (props : list (string * value))
    (g : nat) (gp : list (string * value)) (req res : value) (n : nat) (w : world E) :
  truthy (get_opt (member (VFun f props) "prototype") "use") = false ->
  (if nullish (member (VFun f props) "use")
   then VFun f props else member (VFun f props) "use") = VFun g gp ->
  middlewareHandler (VFun f props) req res (VNative n) w
  = let mw := VFun f props in
    let args := [req; res; VNative n] in
    match apply_fn (VFun g gp) mw args (outside w) with
    | (Throw e, o1) =>
        (Normal VUndefined,
         mkWorld (framework (forwarded n e) o1) (next_oid w) (reactions w)
           (trace w ++ [ECall (VFun g gp) mw args; forwarded n e]))
    | (Normal r, o1) =>
        (Normal VUndefined,
         mkWorld o1 (next_oid w)
           match r with
           | VPromise p => reactions w ++ [(p, [OnRejected (Continuation (VNative n))])]
           | _ => reactions w
           end
           (trace w ++ [ECall (VFun g gp) mw args]))
    end.
Proof.
  intros Huse Hhandler.
  unfold middlewareHandler, invokeMiddleware, getMiddlewareInstance, forwarded.
  unfold bind, async, await, try_catch, react, run_callback, chain_end, ret, throw.
  simpl is_function. cbv iota. rewrite Huse.
  unfold get_opt. simpl in Hhandler |- *. rewrite Hhandler. simpl.
  unfold call_member, call, emit, bind, ret, set_outside. simpl.
  destruct (apply_fn _ _ _ _) as [[r|e] o1]; simpl.
  - destruct r; simpl; reflexivity.
  - by rewrite <- !app_assoc.
Qed.

(** With a continuation of the framework as [next], the handler returns. *)
Lemma middlewareHandler_returns (mw req res : value) (n : nat) (w : world E) :
  fst (middlewareHandler mw req res (VNative n) w) = Normal VUndefined.
Proof.
  unfold middlewareHandler, invokeMiddleware.
  unfold bind at 1. unfold async at 1. unfold try_catch.
  match goal with |- context [bind ?m ?k w] => destruct (bind m k w) as [[v|e] w1] end.
  - reflexivity.
  - reflexivity.
Qed.

(** The earlier version on a function that has no [use] member of its own:
    [middleware.use] is [undefined], the member call on it throws, and the
    error goes to [next]; the function is not called. *)
Lemma Old_middlewareHandler_function (f : nat) (props : list (string * value))
    (req res : value) (n : nat) (w : world E) :
  nullish (member (VFun f props) "use") = true ->
  Old.middlewareHandler (VFun f props) req res (VNative n) w
  = (Normal VUndefined,
     mkWorld
       (framework (forwarded n (TypeError "Cannot read properties of undefined or null"))
          (outside w))
       (next_oid w) (reactions w)
       (trace w ++ [forwarded n (TypeError "Cannot read properties of undefined or null")])).
Proof.
  intros Hnull.
  unfold Old.middlewareHandler, Old.invokeMiddleware, forwarded.
  unfold bind, async, try_catch, lift, get, call_member. simpl in *. rewrite Hnull.
  reflexivity.
Qed.

Lemma middlewareHandler_falsy (mw req res next : value) (w : world E) :
  truthy mw = false ->
  Old.middlewareHandler mw req res next w = middlewareHandler mw req res next w.
Proof.
  intros Hmw. pose proof (truthy_not_function mw Hmw) as Hfn.
  unfold Old.middlewareHandler, middlewareHandler.
  unfold Old.invokeMiddleware, invokeMiddleware, getMiddlewareInstance.
  rewrite Hmw, Hfn. reflexivity.
Qed.

End MiddlewareFacts.

Section MiddlewareProperties.

Context {E : Type} `{!Outside E}.

(** One invocation of the handler of a middleware class: the instance is
    allocated at the next free identity, [use] is called on that instance
    only, with the invocation's own arguments. *)
Lemma middlewareHandler_class_invocation (f : nat) (props : list (string * value))
    (proto : value) (u : nat) (up : list (string * value))
    (req res : value) (n : nat) (w : world E) :
  member (VFun f props) "prototype" = proto ->
  member proto "use" = VFun u up ->
  let mw := VFun f props in
  let inst := VInst (next_oid w) proto in
  let w1 := snd (middlewareHandler mw req res (VNative n) w) in
  next_oid w1 = S (next_oid w) /\
  exists rest,
    trace w1 = trace w ++ ENew mw inst :: rest /\
    (forall this args, ECall (VFun u up) this args ∈ rest ->
       this = inst /\ args = [req; res; VNative n]) /\
    (forall o, constructor mw inst (outside w) = (Normal tt, o) ->
       exists tl, rest = ECall (VFun u up) inst [req; res; VNative n] :: tl).
Proof.
  intros Hproto Huse mw inst w1. subst w1 mw inst.
  rewrite (middlewareHandler_class f props proto u up req res n w Hproto Huse). simpl.
  destruct (constructor _ _ _) as [[[]|e] o1]; simpl.
  - destruct (apply_fn _ _ _ _) as [[r|e] o2]; simpl; (split; [reflexivity|]);
      eexists; (split; [reflexivity|]); split.
    + intros this args Hin. apply list_elem_of_singleton in Hin.
      injection Hin as -> ->. done.
    + intros o _. eauto.
    + intros this args Hin. rewrite !elem_of_cons, elem_of_nil in Hin.
      unfold forwarded in Hin. destruct Hin as [Hin|[Hin|[]]]; [|discriminate Hin].
      injection Hin as -> ->. done.
    + intros o _. eauto.
  - split; [reflexivity|]. eexists. split; [reflexivity|]. split.
    + intros this args Hin. apply list_elem_of_singleton in Hin.
      unfold forwarded in Hin. discriminate Hin.
    + intros o Ho. discriminate Ho.
Qed.

(** C5. For a middleware reference that is a function whose prototype has a
    [use] function, every invocation of the handler constructs an instance
    before it calls [use], and calls [use] on that instance and on no other;
    the instances of two consecutive invocations are different objects. *)
Theorem middlewareHandler_fresh_instance_per_invocation
    (f : nat) (props : list (string * value)) (proto : value)
    (u : nat) (up : list (string * value))
    (req1 res1 req2 res2 : value) (n1 n2 : nat) (w : world E) :
  member (VFun f props) "prototype" = proto ->
  member proto "use" = VFun u up ->
  let mw := VFun f props in
  let w1 := snd (middlewareHandler mw req1 res1 (VNative n1) w) in
  let w2 := snd (middlewareHandler mw req2 res2 (VNative n2) w1) in
  let inst1 := VInst (next_oid w) proto in
  let inst2 := VInst (next_oid w1) proto in
  inst1 <> inst2 /\
  (exists rest1,
     trace w1 = trace w ++ ENew mw inst1 :: rest1 /\
     (forall this args, ECall (VFun u up) this args ∈ rest1 ->
        this = inst1 /\ args = [req1; res1; VNative n1]) /\
     (forall o, constructor mw inst1 (outside w) = (Normal tt, o) ->
        exists tl, rest1 = ECall (VFun u up) inst1 [req1; res1; VNative n1] :: tl)) /\
  (exists rest2,
     trace w2 = trace w1 ++ ENew mw inst2 :: rest2 /\
     (forall this args, ECall (VFun u up) this args ∈ rest2 ->
        this = inst2 /\ args = [req2; res2; VNative n2]) /\
     (forall o, constructor mw inst2 (outside w1) = (Normal tt, o) ->
        exists tl, rest2 = ECall (VFun u up) inst2 [req2; res2; VNative n2] :: tl)).
Proof.
  intros Hproto Huse mw w1 w2 inst1 inst2.
  destruct (middlewareHandler_class_invocation f props proto u up req1 res1 n1 w Hproto Huse)
    as [Hoid1 Hfirst].
  destruct (middlewareHandler_class_invocation f props proto u up req2 res2 n2 w1 Hproto Huse)
    as [_ Hsecond].
  split; [|split; assumption].
  subst inst1 inst2. fold mw in Hoid1. fold w1 in Hoid1. rewrite Hoid1.
  intros Heq. injection Heq as Heq. lia.
Qed.

Ltac first_event_is_new :=
  eexists; split; [rewrite <- ?app_assoc; reflexivity | left; by eexists].

(** The current version on a function reference with no [use] member of its
    own starts by constructing an instance or by calling the function. *)
Lemma middlewareHandler_function_first_event
    (f : nat) (props : list (string * value)) (req res : value) (n : nat) (w : world E) :
  nullish (member (VFun f props) "use") = true ->
  exists first rest,
    trace (snd (middlewareHandler (VFun f props) req res (VNative n) w))
      = trace w ++ first :: rest /\
    ((exists inst, first = ENew (VFun f props) inst) \/
     first = ECall (VFun f props) (VFun f props) [req; res; VNative n]).
Proof.
  intros Hstatic.
  destruct (truthy (get_opt (member (VFun f props) "prototype") "use")) eqn:Huse.
  - unfold middlewareHandler, invokeMiddleware, getMiddlewareInstance, new.
    unfold bind, async, await, try_catch, react, run_callback, chain_end, ret, throw.
    change (is_function (VFun f props)) with true. cbv beta iota zeta. rewrite Huse.
    set (inst := VInst (next_oid w) (if is_object _ then _ else _)).
    exists (ENew (VFun f props) inst).
    destruct (constructor _ _ _) as [[[]|e] o1]; simpl.
    + unfold call_member, call, framework_call, emit, bind, ret, throw, set_outside.
      destruct (if nullish (get_opt inst "use") then inst else get_opt inst "use")
        as [| |b|z|s|l|l|g gp|o op|m|h|q|a b];
        simpl; try first_event_is_new.
      destruct (apply_fn _ _ _ _) as [[r|e] o2]; simpl.
      * destruct r; simpl; first_event_is_new.
      * first_event_is_new.
    + first_event_is_new.
  - assert (Hhandler : (if nullish (member (VFun f props) "use")
                        then VFun f props else member (VFun f props) "use")
                       = VFun f props) by (by rewrite Hstatic).
    rewrite (middlewareHandler_function f props f props req res n w Huse Hhandler). simpl.
    exists (ECall (VFun f props) (VFun f props) [req; res; VNative n]).
    destruct (apply_fn _ _ _ _) as [[r|e] o1]; simpl;
      (eexists; split; [reflexivity | by right]).
Qed.

(** On a falsy reference either version calls [next()] and does nothing
    else. *)
Lemma middlewareHandler_falsy_calls_next (mw req res : value) (n : nat) (w : world E) :
  truthy mw = false ->
  middlewareHandler mw req res (VNative n) w
  = (Normal VUndefined,
     mkWorld (framework (ECall (VNative n) VUndefined []) (outside w))
       (next_oid w) (reactions w) (trace w ++ [ECall (VNative n) VUndefined []])).
Proof.
  intros Hmw. pose proof (truthy_not_function mw Hmw) as Hfn.
  unfold middlewareHandler, invokeMiddleware, getMiddlewareInstance.
  rewrite Hfn. reflexivity.
Qed.

(** C10, amended.  On a falsy middleware reference the two versions of the
    handler do the same thing: each calls [next()] once, with no argument,
    does nothing else and returns.  On a function reference with no [use]
    member of its own they differ.  The earlier version forwards a TypeError
    to [next] and does nothing else: the middleware is not invoked.  The
    current version, for a class (the prototype has a [use] function),
    constructs an instance and then calls [use] on that instance with the
    request, the response and [next]; for a function whose prototype has no
    [use], it calls the function, as its own [this], with the same three
    arguments; what either call throws is forwarded to [next], and a promise
    it returns gets [next] as its rejection handler. *)
Theorem middlewareHandler_versions_agree_on_falsy :
  (forall (mw req res next : value) (w : world E),
     truthy mw = false ->
     Old.middlewareHandler mw req res next w = middlewareHandler mw req res next w) /\
  (forall (mw req res : value) (n : nat) (w : world E),
     truthy mw = false ->
     let after :=
       mkWorld (framework (ECall (VNative n) VUndefined []) (outside w))
         (next_oid w) (reactions w) (trace w ++ [ECall (VNative n) VUndefined []]) in
     Old.middlewareHandler mw req res (VNative n) w = (Normal VUndefined, after) /\
     middlewareHandler mw req res (VNative n) w = (Normal VUndefined, after)) /\
  (forall (f : nat) (props : list (string * value)) (req res : value) (n : nat)
          (w : world E),
     nullish (member (VFun f props) "use") = true ->
     let mw := VFun f props in
     let args := [req; res; VNative n] in
     (exists msg,
        Old.middlewareHandler mw req res (VNative n) w
        = (Normal VUndefined,
           mkWorld (framework (forwarded n (TypeError msg)) (outside w))
             (next_oid w) (reactions w) (trace w ++ [forwarded n (TypeError msg)]))) /\
     Old.middlewareHandler mw req res (VNative n) w
       <> middlewareHandler mw req res (VNative n) w /\
     (forall (proto : value) (u : nat) (up : list (string * value)),
        member mw "prototype" = proto ->
        member proto "use" = VFun u up ->
        let inst := VInst (next_oid w) proto in
        middlewareHandler mw req res (VNative n) w
        = match constructor mw inst (outside w) with
          | (Throw e, o1) =>
              (Normal VUndefined,
               mkWorld (framework (forwarded n e) o1) (S (next_oid w)) (reactions w)
                 (trace w ++ [ENew mw inst; forwarded n e]))
          | (Normal _, o1) =>
              match apply_fn (VFun u up) inst args o1 with
              | (Throw e, o2) =>
                  (Normal VUndefined,
                   mkWorld (framework (forwarded n e) o2) (S (next_oid w)) (reactions w)
                     (trace w ++ [ENew mw inst; ECall (VFun u up) inst args; forwarded n e]))
              | (Normal r, o2) =>
                  (Normal VUndefined,
                   mkWorld o2 (S (next_oid w))
                     match r with
                     | VPromise p =>
                         reactions w ++ [(p, [OnRejected (Continuation (VNative n))])]
                     | _ => reactions w
                     end
                     (trace w ++ [ENew mw inst; ECall (VFun u up) inst args]))
              end
          end) /\
     (truthy (get_opt (member mw "prototype") "use") = false ->
      middlewareHandler mw req res (VNative n) w
      = match apply_fn mw mw args (outside w) with
        | (Throw e, o1) =>
            (Normal VUndefined,
             mkWorld (framework (forwarded n e) o1) (next_oid w) (reactions w)
               (trace w ++ [ECall mw mw args; forwarded n e]))
        | (Normal r, o1) =>
            (Normal VUndefined,
             mkWorld o1 (next_oid w)
               match r with
               | VPromise p =>
                   reactions w ++ [(p, [OnRejected (Continuation (VNative n))])]
               | _ => reactions w
               end
               (trace w ++ [ECall mw mw args]))
        end)).
Proof.
  split; [exact middlewareHandler_falsy|]. split.
  - intros mw req res n w Hmw after. subst after.
    rewrite (middlewareHandler_falsy mw req res (VNative n) w Hmw).
    split; by apply middlewareHandler_falsy_calls_next.
  - intros f props req res n w Hstatic mw args. subst mw args.
    pose proof (Old_middlewareHandler_function f props req res n w Hstatic) as Hold.
    split; [eexists; exact Hold|]. split; [|split].
    + intros Heq.
      destruct (middlewareHandler_function_first_event f props req res n w Hstatic)
        as (first & rest & Htrace & Hfirst).
      rewrite <- Heq, Hold in Htrace. simpl in Htrace.
      apply app_inv_head in Htrace. injection Htrace as Hev _.
      unfold forwarded in Hev.
      destruct Hfirst as [[inst ->]| ->]; discriminate Hev.
    + intros proto u up Hproto Huse inst.
      exact (middlewareHandler_class f props proto u up req res n w Hproto Huse).
    + intros Huse.
      apply (middlewareHandler_function f props f props req res n w Huse).
      by rewrite Hstatic.
Qed.

End MiddlewareProperties.

(** ** Errors at the adapter boundary *)

Section ErrorBoundary.

Context {E : Type} `{!Outside E}.

(** A controller method that throws makes the generated handler throw: the
    call is not guarded, and [next] is not called. *)
Lemma routeHandler_throw_propagates
    (controller : value) (methodName : string)
    (params : option (list ParameterConfiguration)) (status : option Z)
    (req res next : value) (args : list value) (f : nat) (fp : list (string * value))
    (e : value) (o1 : E) (w : world E) :
  extractParameters req res next params = Normal args ->
  get controller methodName = Normal (VFun f fp) ->
  apply_fn (VFun f fp) controller args (outside w) = (Throw e, o1) ->
  routeHandler controller methodName params status req res next w
  = (Throw e,
     mkWorld o1 (next_oid w) (reactions w) (trace w ++ [ECall (VFun f fp) controller args])).
Proof.
  intros Hargs Hmethod Hthrow.
  unfold routeHandler, bind, lift. rewrite Hargs, Hmethod.
  unfold call_member, call, emit, bind, set_outside. simpl. by rewrite Hthrow.
Qed.

(** The chain [catch(next)] that the middleware handler hangs on a promise its
    middleware returned. *)
Lemma settle_catch_next (p n : nat) (e : value) (w : world E) :
  chains_on p w = [[OnRejected (Continuation (VNative n))]] ->
  trace (settle p (Rejected e) w) = trace w ++ [forwarded n e].
Proof.
  intros Hon. by rewrite (settle_one_chain p (Rejected e) _ w Hon).
Qed.

Lemma chains_on_snoc (p : nat) (chain : list reaction) (o : E) (k : nat)
    (rs : list (nat * list reaction)) (t : list event) (w : world E) :
  reactions w = rs ->
  chains_on p (mkWorld o k (rs ++ [(p, chain)]) t) = chains_on p w ++ [chain].
Proof.
  intros <-. rewrite chains_on_app. f_equal.
  unfold chains_on. simpl. by rewrite filter_cons_True.
Qed.

(** C4, amended.  What the adapter's handlers do with errors of application
    code:
    - a synchronous throw of a controller method is not caught by the
      generated route handler: the handler throws it to its caller and does
      not call [next];
    - a rejection of the promise a controller method returned is forwarded to
      [next];
    - the middleware handler returns normally whatever the middleware
      reference is, and forwards to [next] what the constructor of a
      middleware class throws, what [use] of the instance or a middleware
      function throws, and the rejection of a promise they return. *)
Theorem errors_at_the_adapter_boundary :
  (* route handler, synchronous throw *)
  (forall controller methodName params status req res next args f fp e o1 (w : world E),
     extractParameters req res next params = Normal args ->
     get controller methodName = Normal (VFun f fp) ->
     apply_fn (VFun f fp) controller args (outside w) = (Throw e, o1) ->
     fst (routeHandler controller methodName params status req res next w) = Throw e /\
     trace (snd (routeHandler controller methodName params status req res next w))
       = trace w ++ [ECall (VFun f fp) controller args]) /\
  (* route handler, rejection *)
  (forall controller methodName params status req res n p e (w0 w1 w : world E),
     routeHandler controller methodName params status req res (VNative n) w0
       = (Normal (VPromise p), w1) ->
     chains_on p w0 = [] ->
     chains_on p w = chains_on p w1 ->
     trace (settle p (Rejected e) w) = trace w ++ [forwarded n e]) /\
  (* middleware handler, never throws *)
  (forall mw req res n (w : world E),
     fst (middlewareHandler mw req res (VNative n) w) = Normal VUndefined) /\
  (* middleware class *)
  (forall f props proto u up req res n (w : world E),
     member (VFun f props) "prototype" = proto ->
     member proto "use" = VFun u up ->
     let mw := VFun f props in
     let inst := VInst (next_oid w) proto in
     let args := [req; res; VNative n] in
     let w1 := snd (middlewareHandler mw req res (VNative n) w) in
     (forall e o1,
        constructor mw inst (outside w) = (Throw e, o1) ->
        trace w1 = trace w ++ [ENew mw inst; forwarded n e]) /\
     (forall o1 e o2,
        constructor mw inst (outside w) = (Normal tt, o1) ->
        apply_fn (VFun u up) inst args o1 = (Throw e, o2) ->
        trace w1 = trace w ++ [ENew mw inst; ECall (VFun u up) inst args; forwarded n e]) /\
     (forall o1 p o2 e w',
        constructor mw inst (outside w) = (Normal tt, o1) ->
        apply_fn (VFun u up) inst args o1 = (Normal (VPromise p), o2) ->
        chains_on p w = [] ->
        chains_on p w' = chains_on p w1 ->
        trace (settle p (Rejected e) w') = trace w' ++ [forwarded n e])) /\
  (* middleware function without prototype.use *)
  (forall f props g gp req res n (w : world E),
     truthy (get_opt (member (VFun f props) "prototype") "use") = false ->
     (if nullish (member (VFun f props) "use")
      then VFun f props else member (VFun f props) "use") = VFun g gp ->
     let mw := VFun f props in
     let args := [req; res; VNative n] in
     let w1 := snd (middlewareHandler mw req res (VNative n) w) in
     (forall e o1,
        apply_fn (VFun g gp) mw args (outside w) = (Throw e, o1) ->
        trace w1 = trace w ++ [ECall (VFun g gp) mw args; forwarded n e]) /\
     (forall p o1 e w',
        apply_fn (VFun g gp) mw args (outside w) = (Normal (VPromise p), o1) ->
        chains_on p w = [] ->
        chains_on p w' = chains_on p w1 ->
        trace (settle p (Rejected e) w') = trace w' ++ [forwarded n e])).
Proof.
  split; [|split; [|split; [|split]]].
  - intros * Hargs Hmethod Hthrow.
    rewrite (routeHandler_throw_propagates _ _ _ status _ _ _ _ _ _ _ _ _ Hargs Hmethod Hthrow).
    split; reflexivity.
  - intros * Hrun Hfresh Hsame.
    apply routeHandler_registers in Hrun. rewrite Hfresh in Hrun. simpl in Hrun.
    rewrite Hrun in Hsame.
    by rewrite (settle_one_chain p (Rejected e) _ w Hsame).
  - intros. apply middlewareHandler_returns.
  - intros f props proto u up req res n w Hproto Huse mw inst args w1. subst w1 mw inst args.
    rewrite (middlewareHandler_class f props proto u up req res n w Hproto Huse). simpl.
    split; [|split].
    + intros e o1 ->. reflexivity.
    + intros o1 e o2 -> ->. reflexivity.
    + intros o1 p o2 e w' -> -> Hfresh Hsame. simpl in Hsame.
      rewrite (chains_on_snoc p _ _ _ (reactions w) _ w eq_refl), Hfresh in Hsame.
      by apply settle_catch_next.
  - intros f props g gp req res n w Huse Hhandler mw args w1. subst w1 mw args.
    rewrite (middlewareHandler_function f props g gp req res n w Huse Hhandler). simpl.
    split.
    + intros e o1 ->. reflexivity.
    + intros p o1 e w' -> Hfresh Hsame. simpl in Hsame.
      rewrite (chains_on_snoc p _ _ _ (reactions w) _ w eq_refl), Hfresh in Hsame.
      by apply settle_catch_next.
Qed.

End ErrorBoundary.

(** C4, as stated, fails: the controller method [fails] throws, and the
    generated route handler throws the same error to its caller; the only
    call in its trace is the call of the method, [next] is not called. *)
Lemma routeHandler_sync_throw_not_forwarded :
  routeHandler Demo.controller "fails" None None Demo.req Demo.res Demo.next Demo.start
  = (Throw Demo.boom,
     mkWorld false 0 [] [ECall (VFun 1 []) Demo.controller []]) /\
  forwarded 0 Demo.boom ∉
    trace (snd (routeHandler Demo.controller "fails" None None
                  Demo.req Demo.res Demo.next Demo.start)).
Proof.
  split; [reflexivity|].
  simpl. intros Hin. apply list_elem_of_singleton in Hin. discriminate Hin.
Qed.

Lemma errors_at_the_adapter_boundary_witness :
  fst (routeHandler Demo.controller "fails" None None Demo.req Demo.res Demo.next Demo.start)
    = Throw Demo.boom /\
  trace (snd (middlewareHandler Demo.Failing Demo.req Demo.res (VNative 0) Demo.start))
    = [ENew Demo.Failing (VInst 0 (VObj [("use", VFun 1 [])]));
       ECall (VFun 1 []) (VInst 0 (VObj [("use", VFun 1 [])]))
         [Demo.req; Demo.res; VNative 0];
       forwarded 0 Demo.boom].
Proof.
  destruct (@errors_at_the_adapter_boundary bool Demo.app)
    as (Hsync & _ & _ & Hclass & _).
  split.
  - refine (proj1 (Hsync Demo.controller "fails" None None Demo.req Demo.res Demo.next
                     [] 1 [] Demo.boom false Demo.start _ _ _)); reflexivity.
  - refine (proj1 (proj2 (Hclass 8 [("prototype", VObj [("use", VFun 1 [])])]
                            (VObj [("use", VFun 1 [])]) 1 []
                            Demo.req Demo.res 0 Demo.start _ _))
              false Demo.boom false _ _); reflexivity.
Defined.

Example middlewareHandler_constructor_throws :
  trace (snd (middlewareHandler Demo.Unbuildable Demo.req Demo.res Demo.next Demo.start))
  = [ENew Demo.Unbuildable (VInst 0 (VObj [("use", VFun 7 [])])); forwarded 0 Demo.boom].
Proof. reflexivity. Qed.

Lemma middlewareHandler_fresh_instance_per_invocation_witness :
  VInst (next_oid Demo.start) Demo.Logger_prototype
  <> VInst (next_oid (snd (middlewareHandler Demo.Logger Demo.req Demo.res (VNative 0)
                             Demo.start)))
       Demo.Logger_prototype.
Proof.
  refine (proj1 (middlewareHandler_fresh_instance_per_invocation
                   6 [("prototype", Demo.Logger_prototype)] Demo.Logger_prototype 7 []
                   Demo.req Demo.res Demo.req Demo.res 0 0 Demo.start _ _));
    reflexivity.
Defined.

Example middlewareHandler_two_invocations :
  trace (snd (middlewareHandler Demo.Logger Demo.req Demo.res Demo.next
                (snd (middlewareHandler Demo.Logger Demo.req Demo.res Demo.next Demo.start))))
  = [ENew Demo.Logger (VInst 0 Demo.Logger_prototype);
     ECall (VFun 7 []) (VInst 0 Demo.Logger_prototype) [Demo.req; Demo.res; Demo.next];
     ENew Demo.Logger (VInst 1 Demo.Logger_prototype);
     ECall (VFun 7 []) (VInst 1 Demo.Logger_prototype) [Demo.req; Demo.res; Demo.next]].
Proof. reflexivity. Qed.

(** C10, as stated, fails: on a plain middleware function the earlier version
    forwards a TypeError to [next] without calling the function, the current
    version calls the function with the request, the response and [next]. *)
Lemma middlewareHandler_versions_differ_on_function :
  (exists msg,
     trace (snd (Old.middlewareHandler Demo.plain Demo.req Demo.res Demo.next Demo.start))
     = [forwarded 0 (TypeError msg)]) /\
  trace (snd (middlewareHandler Demo.plain Demo.req Demo.res Demo.next Demo.start))
    = [ECall Demo.plain Demo.plain [Demo.req; Demo.res; Demo.next]] /\
  Old.middlewareHandler Demo.plain Demo.req Demo.res Demo.next Demo.start
    <> middlewareHandler Demo.plain Demo.req Demo.res Demo.next Demo.start.
Proof.
  split; [eexists; reflexivity|]. split; [reflexivity|].
  intros Heq. apply (f_equal (fun r => trace (snd r))) in Heq. discriminate Heq.
Qed.

Lemma middlewareHandler_versions_agree_on_falsy_witness :
  (Old.middlewareHandler VUndefined Demo.req Demo.res Demo.next Demo.start
   = (Normal VUndefined, mkWorld false 0 [] [ECall Demo.next VUndefined []]) /\
   middlewareHandler VUndefined Demo.req Demo.res Demo.next Demo.start
   = (Normal VUndefined, mkWorld false 0 [] [ECall Demo.next VUndefined []])) /\
  middlewareHandler Demo.Logger Demo.req Demo.res Demo.next Demo.start
  = (Normal VUndefined,
     mkWorld false 1 []
       [ENew Demo.Logger (VInst 0 Demo.Logger_prototype);
        ECall (VFun 7 []) (VInst 0 Demo.Logger_prototype) [Demo.req; Demo.res; Demo.next]]) /\
  middlewareHandler Demo.plain Demo.req Demo.res Demo.next Demo.start
  = (Normal VUndefined,
     mkWorld false 0 [] [ECall Demo.plain Demo.plain [Demo.req; Demo.res; Demo.next]]).
Proof.
  destruct (@middlewareHandler_versions_agree_on_falsy bool Demo.app)
    as (_ & Hfalsy & Hfunction).
  split; [|split].
  - refine (Hfalsy VUndefined Demo.req Demo.res 0 Demo.start _). reflexivity.
  - refine (proj1 (proj2 (proj2 (Hfunction 6 [("prototype", Demo.Logger_prototype)]
                                   Demo.req Demo.res 0 Demo.start _)))
              Demo.Logger_prototype 7 [] _ _); reflexivity.
  - refine (proj2 (proj2 (proj2 (Hfunction 4 [("prototype", VObj [])]
                                   Demo.req Demo.res 0 Demo.start _))) _); reflexivity.
Defined.

Example middlewareHandler_undefined_calls_next :
  trace (snd (middlewareHandler VUndefined Demo.req Demo.res Demo.next Demo.start))
  = [ECall Demo.next VUndefined []].
Proof. reflexivity. Qed.

(** * Further properties of the adapter *)

(** ** Parameter extraction, any declaration list *)

Lemma extract_loop_length (params : list ParameterConfiguration) (n : nat) :
  foldr (fun p k => Nat.max (S (index p)) k) n params
  = Nat.max n (max_list_with (fun p => S (index p)) params).
Proof.
  rewrite max_list_with_foldr. induction params as [|p rest IH]; simpl; lia.
Qed.

(** X1. On a request object [extractParameters] returns normally for every
    declaration list, repeated indices included, and the array it returns is
    exactly as long as the largest declared index plus one (empty when
    nothing is declared). *)
Theorem extractParameters_total_exact_length
    (req res next : value) (params : list ParameterConfiguration) :
  nullish req = false ->
  exists args,
    extractParameters req res next (Some params) = Normal args /\
    length args = max_list_with (fun p => S (index p)) params.
Proof.
  intros Hreq. unfold extractParameters. simpl.
  destruct (extract_loop_spec req res next params Hreq []) as (args & Hrun & Hlen & _).
  exists args. split; [exact Hrun|].
  rewrite Hlen, extract_loop_length. simpl. lia.
Qed.

Lemma extractParameters_total_exact_length_witness :
  exists args,
    extractParameters Demo.req Demo.res Demo.next
      (Some [mkParam 3 NEXT None; mkParam 0 PARAMS (Some "id"); mkParam 3 RESPONSE None])
      = Normal args /\
    length args = 4.
Proof.
  refine (extractParameters_total_exact_length Demo.req Demo.res Demo.next
            [mkParam 3 NEXT None; mkParam 0 PARAMS (Some "id"); mkParam 3 RESPONSE None] _).
  reflexivity.
Defined.

(** X2. When an index is declared more than once, the declaration that comes
    last in the list decides the value at that index; an index nobody
    declares reads [undefined]. *)
Theorem extractParameters_last_declaration_wins
    (req res next : value) (params : list ParameterConfiguration) :
  nullish req = false ->
  exists args,
    extractParameters req res next (Some params) = Normal args /\
    forall i,
      match last_declared i params with
      | Some p => param_value req res next p = Normal (array_get args i)
      | None => array_get args i = VUndefined
      end.
Proof.
  intros Hreq. unfold extractParameters. simpl.
  destruct (extract_loop_spec req res next params Hreq []) as (args & Hrun & _ & Hget).
  exists args. split; [exact Hrun|].
  intros i. specialize (Hget i). destruct (last_declared i params); [exact Hget|].
  rewrite Hget. reflexivity.
Qed.

Lemma extractParameters_last_declaration_wins_witness :
  exists args,
    extractParameters Demo.req Demo.res Demo.next
      (Some [mkParam 0 RESPONSE None; mkParam 0 NEXT None]) = Normal args /\
    forall i,
      match last_declared i [mkParam 0 RESPONSE None; mkParam 0 NEXT None] with
      | Some p => param_value Demo.req Demo.res Demo.next p = Normal (array_get args i)
      | None => array_get args i = VUndefined
      end.
Proof.
  refine (extractParameters_last_declaration_wins Demo.req Demo.res Demo.next
            [mkParam 0 RESPONSE None; mkParam 0 NEXT None] _).
  reflexivity.
Defined.

Lemma array_ext (a b : list value) :
  length a = length b ->
  (forall i, array_get a i = array_get b i) ->
  a = b.
Proof.
  intros Hlen Hget. apply list_eq. intros i.
  destruct (Nat.lt_ge_cases i (length a)) as [Hi|Hi].
  - destruct (lookup_lt_is_Some_2 a i Hi) as [x Hx].
    destruct (lookup_lt_is_Some_2 b i ltac:(lia)) as [y Hy].
    specialize (Hget i). unfold array_get in Hget. rewrite Hx, Hy in Hget.
    simpl in Hget. by rewrite Hx, Hy, Hget.
  - rewrite !lookup_ge_None_2 by lia. reflexivity.
Qed.

(** X3. With distinct indices the order of the declarations does not matter:
    two lists that are permutations of each other give the same argument
    array. *)
Theorem extractParameters_order_irrelevant
    (req res next : value) (params params' : list ParameterConfiguration) :
  nullish req = false ->
  NoDup (index <$> params) ->
  params ≡ₚ params' ->
  extractParameters req res next (Some params)
  = extractParameters req res next (Some params').
Proof.
  intros Hreq Hnd Hperm.
  assert (Hnd' : NoDup (index <$> params')) by (by rewrite <- Hperm).
  unfold extractParameters. simpl.
  destruct (extract_loop_spec req res next params Hreq []) as (a & Ha & Hla & Hga).
  destruct (extract_loop_spec req res next params' Hreq []) as (b & Hb & Hlb & Hgb).
  rewrite Ha, Hb. f_equal. apply array_ext.
  - rewrite Hla, Hlb, !extract_loop_length. by rewrite Hperm.
  - intros i. specialize (Hga i). specialize (Hgb i).
    destruct (decide (i ∈ index <$> params)) as [Hin|Hout].
    + apply list_elem_of_fmap in Hin as (p & -> & Hp).
      rewrite (last_declared_NoDup p params Hnd Hp) in Hga.
      rewrite (last_declared_NoDup p params' Hnd') in Hgb by (by rewrite <- Hperm).
      congruence.
    + rewrite (last_declared_None i params Hout) in Hga.
      rewrite (last_declared_None i params') in Hgb by (by rewrite <- Hperm).
      congruence.
Qed.

Lemma extractParameters_order_irrelevant_witness :
  extractParameters Demo.req Demo.res Demo.next
    (Some [mkParam 2 NEXT None; mkParam 0 PARAMS (Some "id")])
  = extractParameters Demo.req Demo.res Demo.next
      (Some [mkParam 0 PARAMS (Some "id"); mkParam 2 NEXT None]).
Proof.
  refine (extractParameters_order_irrelevant Demo.req Demo.res Demo.next
            [mkParam 2 NEXT None; mkParam 0 PARAMS (Some "id")]
            [mkParam 0 PARAMS (Some "id"); mkParam 2 NEXT None] _ _ _).
  - reflexivity.
  - apply (bool_decide_unpack _). vm_compute. exact I.
  - apply Permutation_swap.
Defined.

(** X4. [getParam] replaces a falsy sub-object, not only a missing one: when
    [source[paramType]] is [undefined], [null], [false], 0 or the empty
    string, the request itself is read instead; a truthy sub-object is
    returned whole when no name is given. *)
Theorem getParam_falsy_subobject_replaced
    (source : value) (key : string) (name : option string) :
  nullish source = false -> key <> "" ->
  (truthy (member source key) = false ->
     getParam source (Some key) name = getParam source None name) /\
  (truthy (member source key) = true ->
     getParam source (Some key) None = Normal (member source key)).
Proof.
  intros Hs Hkey. unfold getParam, get. simpl.
  destruct (String.eqb_spec key "") as [|_]; [done|]. simpl.
  rewrite Hs. split; intros Ht; rewrite Ht; rewrite ?Hs; reflexivity.
Qed.

Lemma getParam_falsy_subobject_replaced_witness :
  getParam (VObj [("body", VNum 0); ("n", VStr "on request")]) (Some "body") (Some "n")
  = getParam (VObj [("body", VNum 0); ("n", VStr "on request")]) None (Some "n").
Proof.
  refine (proj1 (getParam_falsy_subobject_replaced
                   (VObj [("body", VNum 0); ("n", VStr "on request")]) "body" (Some "n")
                   _ _) _).
  - reflexivity.
  - discriminate.
  - reflexivity.
Defined.

(** ** Route handlers, immediate results *)

Section RouteHandlerImmediate.

Context {E : Type} `{!Outside E}.

(** X5. When the controller method returns an immediate value that is not
    [undefined], and the headers are not sent once the method has run, the
    handler calls [send] with that value once, after [status] with the
    declared (non-zero) code, registers nothing, and returns the value. *)
Theorem routeHandler_sends_immediate_value
    (controller : value) (methodName : string)
    (params : option (list ParameterConfiguration)) (status : option Z)
    (req res next : value) (args : list value) (f : nat) (fp : list (string * value))
    (v : value) (o1 : E) (w : world E) :
  extractParameters req res next params = Normal args ->
  get controller methodName = Normal (VFun f fp) ->
  apply_fn (VFun f fp) controller args (outside w) = (Normal v, o1) ->
  instanceof_Promise v = false -> v <> VUndefined ->
  headersSent res o1 = false ->
  let w1 := snd (routeHandler controller methodName params status req res next w) in
  fst (routeHandler controller methodName params status req res next w) = Normal v /\
  reactions w1 = reactions w /\
  (status = None ->
     trace w1 = trace w ++ [ECall (VFun f fp) controller args; ESend res v]) /\
  (forall code, status = Some code -> code <> 0%Z ->
     trace w1 = trace w ++ [ECall (VFun f fp) controller args; EStatus res code; ESend res v]).
Proof.
  intros Hargs Hmethod Hcall Hp Hv Hsent.
  assert (Hu : is_undefined v = false) by (destruct v; simpl; congruence).
  unfold routeHandler, bind, lift. rewrite Hargs, Hmethod.
  unfold call_member, call, emit, bind, set_outside. simpl. rewrite Hcall.
  rewrite Hp, Hu. simpl.
  unfold res_headersSent, bind. simpl. rewrite Hsent. simpl.
  destruct status as [code|]; simpl.
  - destruct (Z.eqb_spec code 0) as [->|Hne]; simpl.
    + repeat split; [discriminate | by intros c [= <-] ].
    + repeat split; [discriminate|]. intros c [= <-] _. by rewrite <- !app_assoc.
  - repeat split; [by rewrite <- !app_assoc | discriminate].
Qed.

(** X6. When the immediate value is [undefined], or the headers are sent by
    the time the method has returned (the method answered by itself), the
    handler calls nothing on the response: its trace holds the call of the
    method alone, and it returns what the method returned. *)
Theorem routeHandler_immediate_value_not_sent
    (controller : value) (methodName : string)
    (params : option (list ParameterConfiguration)) (status : option Z)
    (req res next : value) (args : list value) (f : nat) (fp : list (string * value))
    (v : value) (o1 : E) (w : world E) :
  extractParameters req res next params = Normal args ->
  get controller methodName = Normal (VFun f fp) ->
  apply_fn (VFun f fp) controller args (outside w) = (Normal v, o1) ->
  instanceof_Promise v = false ->
  v = VUndefined \/ headersSent res o1 = true ->
  routeHandler controller methodName params status req res next w
  = (Normal v,
     mkWorld o1 (next_oid w) (reactions w) (trace w ++ [ECall (VFun f fp) controller args])).
Proof.
  intros Hargs Hmethod Hcall Hp Hsilent.
  unfold routeHandler, bind, lift. rewrite Hargs, Hmethod.
  unfold call_member, call, emit, bind, set_outside. simpl. rewrite Hcall, Hp.
  destruct Hsilent as [->|Hsent]; [reflexivity|].
  destruct (is_undefined v); [reflexivity|]. simpl.
  unfold res_headersSent. simpl. rewrite Hsent. reflexivity.
Qed.

(** X7. When the controller has no function under the method name, the
    handler throws a TypeError to its caller before anything is called: the
    world is as it was, and [next] is not invoked. *)
Theorem routeHandler_missing_method_throws
    (controller : value) (methodName : string)
    (params : option (list ParameterConfiguration)) (status : option Z)
    (req res next : value) (args : list value) (w : world E) :
  extractParameters req res next params = Normal args ->
  nullish controller = false ->
  is_function (member controller methodName) = false ->
  exists msg,
    routeHandler controller methodName params status req res next w
    = (Throw (TypeError msg), w).
Proof.
  intros Hargs Hc Hm.
  unfold routeHandler, bind, lift, get. rewrite Hargs, Hc.
  unfold call_member. rewrite Hm.
  destruct (nullish (member controller methodName)); eexists; reflexivity.
Qed.

End RouteHandlerImmediate.

Lemma routeHandler_sends_immediate_value_witness :
  trace (snd (routeHandler Demo.controller "now" None (Some 201%Z)
                Demo.req Demo.res Demo.next Demo.start))
  = trace Demo.start
    ++ [ECall (VFun 3 []) Demo.controller []; EStatus Demo.res 201; ESend Demo.res (VStr "ok")].
Proof.
  refine (proj2 (proj2 (proj2 (routeHandler_sends_immediate_value
                   Demo.controller "now" None (Some 201%Z) Demo.req Demo.res Demo.next
                   [] 3 [] (VStr "ok") false Demo.start _ _ _ _ _ _))) 201%Z _ _).
  - reflexivity.
  - reflexivity.
  - reflexivity.
  - reflexivity.
  - discriminate.
  - reflexivity.
  - reflexivity.
  - lia.
Defined.

Lemma routeHandler_immediate_value_not_sent_witness :
  routeHandler Demo.controller "now" None (Some 201%Z) Demo.req Demo.res Demo.next
    (mkWorld true 0 [] [])
  = (Normal (VStr "ok"),
     mkWorld true 0 [] [ECall (VFun 3 []) Demo.controller []]).
Proof.
  refine (routeHandler_immediate_value_not_sent
            Demo.controller "now" None (Some 201%Z) Demo.req Demo.res Demo.next
            [] 3 [] (VStr "ok") true (mkWorld true 0 [] []) _ _ _ _ _).
  - reflexivity.
  - reflexivity.
  - reflexivity.
  - reflexivity.
  - right. reflexivity.
Defined.

Lemma routeHandler_missing_method_throws_witness :
  exists msg,
    routeHandler Demo.controller "absent" None None Demo.req Demo.res Demo.next Demo.start
    = (Throw (TypeError msg), Demo.start).
Proof.
  refine (routeHandler_missing_method_throws
            Demo.controller "absent" None None Demo.req Demo.res Demo.next [] Demo.start
            _ _ _); reflexivity.
Defined.

(** ** Middleware attachment, further *)

Lemma getMeta_other (target k : nat) (store : gmap nat ExpressMeta) :
  k <> target -> snd (getMeta target store) !! k = store !! k.
Proof.
  intros Hk. unfold getMeta. destruct (store !! target); simpl; [done|].
  by rewrite lookup_insert_ne.
Qed.

(** The two effective branches of [attachMiddleware], on the record of the
    target. *)
Lemma attachMiddleware_controller_level
    (target : Target) (property : option string) (B : value)
    (store : gmap nat ExpressMeta) :
  meta_url (fst (getMeta (targetClass target) store)) <> "" ->
  attachMiddleware target property B store
  = (Normal tt,
     <[targetClass target :=
         with_middleware (B :: meta_middleware (fst (getMeta (targetClass target) store)))
           (fst (getMeta (targetClass target) store))]>
       (snd (getMeta (targetClass target) store))).
Proof.
  intros Hurl. unfold attachMiddleware.
  destruct (getMeta (targetClass target) store) as [meta store1]. simpl in *.
  by destruct (String.eqb_spec (meta_url meta) "").
Qed.

(** X8. [attachMiddleware] touches the metadata of its target only: the
    record of every other class identity is the same before and after,
    whatever the arguments and whether it returns or throws. *)
Theorem attachMiddleware_other_targets_untouched
    (target : Target) (property : option string) (B : value)
    (store : gmap nat ExpressMeta) (k : nat) :
  k <> targetClass target ->
  snd (attachMiddleware target property B store) !! k = store !! k.
Proof.
  intros Hk. unfold attachMiddleware.
  pose proof (getMeta_other (targetClass target) k store Hk) as Hother.
  destruct (getMeta (targetClass target) store) as [meta store1]. simpl in Hother.
  destruct (negb (String.eqb (meta_url meta) "")); simpl.
  { by rewrite lookup_insert_ne. }
  destruct (truthy_str property && in_routes _ _); simpl; [|done].
  destruct (meta_routes meta !! default "" property) as [g|]; simpl; [|done].
  destruct (method_routes g); simpl; [done|].
  by rewrite lookup_insert_ne.
Qed.

Lemma attachMiddleware_other_targets_untouched_witness :
  snd (attachMiddleware (TargetFunction 7) None (VFun 2 [])
         {[ 7 := mkMeta "/a" VUndefined [] ∅ ∅; 8 := mkMeta "/b" VUndefined [] ∅ ∅ ]}) !! 8
  = ({[ 7 := mkMeta "/a" VUndefined [] ∅ ∅; 8 := mkMeta "/b" VUndefined [] ∅ ∅ ]}
       : gmap nat ExpressMeta) !! 8.
Proof.
  refine (attachMiddleware_other_targets_untouched (TargetFunction 7) None (VFun 2 [])
            {[ 7 := mkMeta "/a" VUndefined [] ∅ ∅; 8 := mkMeta "/b" VUndefined [] ∅ ∅ ]} 8 _).
  simpl. lia.
Defined.

(** X9. Attachments pile up at the front: on metadata with a non-empty base
    path, attaching B and then C leaves the controller-level list as C, B,
    then what was there, so the middleware attached last runs first. *)
Theorem attachMiddleware_twice_last_first
    (target : Target) (p1 p2 : option string) (B C : value)
    (store : gmap nat ExpressMeta) :
  meta_url (fst (getMeta (targetClass target) store)) <> "" ->
  fst (getMeta (targetClass target)
         (snd (attachMiddleware target p2 C
                 (snd (attachMiddleware target p1 B store)))))
  = with_middleware
      (C :: B :: meta_middleware (fst (getMeta (targetClass target) store)))
      (fst (getMeta (targetClass target) store)).
Proof.
  intros Hurl.
  rewrite (attachMiddleware_controller_level target p1 B store Hurl). simpl.
  rewrite attachMiddleware_controller_level; rewrite getMeta_insert; [|exact Hurl].
  simpl. rewrite getMeta_insert. reflexivity.
Qed.

Lemma attachMiddleware_twice_last_first_witness :
  meta_middleware
    (fst (getMeta 7
            (snd (attachMiddleware (TargetFunction 7) None (VFun 3 [])
                    (snd (attachMiddleware (TargetFunction 7) None (VFun 2 [])
                            {[ 7 := mkMeta "/a" VUndefined [VFun 1 []] ∅ ∅ ]}))))))
  = [VFun 3 []; VFun 2 []; VFun 1 []].
Proof.
  rewrite (attachMiddleware_twice_last_first (TargetFunction 7) None None
             (VFun 2 []) (VFun 3 [])
             {[ 7 := mkMeta "/a" VUndefined [VFun 1 []] ∅ ∅ ]}).
  - vm_compute. reflexivity.
  - vm_compute. discriminate.
Defined.

(** X10. With an empty base path, a method name that names a route group
    holding no route declaration makes [attachMiddleware] throw a TypeError;
    the metadata stays as it was. *)
Theorem attachMiddleware_empty_group_throws
    (target : Target) (p : string) (B : value) (group : MethodMeta)
    (store : gmap nat ExpressMeta) :
  meta_url (fst (getMeta (targetClass target) store)) = "" ->
  p <> "" ->
  meta_routes (fst (getMeta (targetClass target) store)) !! p = Some group ->
  method_routes group = [] ->
  attachMiddleware target (Some p) B store
  = (Throw (TypeError "Cannot read properties of undefined (reading 'middleware')"),
     snd (getMeta (targetClass target) store)).
Proof.
  intros Hurl Hp Hgroup Hroutes. unfold attachMiddleware.
  destruct (getMeta (targetClass target) store) as [meta store1]. simpl in *.
  rewrite Hurl. simpl. destruct (String.eqb_spec p "") as [|_]; [done|]. simpl.
  unfold in_routes. by rewrite Hgroup, Hroutes.
Qed.

Lemma attachMiddleware_empty_group_throws_witness :
  attachMiddleware (TargetObject 7) (Some "list") (VFun 2 [])
    {[ 7 := mkMeta "" VUndefined [] {[ "list" := mkMethodMeta [] None ]} ∅ ]}
  = (Throw (TypeError "Cannot read properties of undefined (reading 'middleware')"),
     snd (getMeta 7 {[ 7 := mkMeta "" VUndefined [] {[ "list" := mkMethodMeta [] None ]} ∅ ]})).
Proof.
  refine (attachMiddleware_empty_group_throws (TargetObject 7) "list" (VFun 2 [])
            (mkMethodMeta [] None)
            {[ 7 := mkMeta "" VUndefined [] {[ "list" := mkMethodMeta [] None ]} ∅ ]}
            _ _ _ _).
  - vm_compute. reflexivity.
  - discriminate.
  - vm_compute. reflexivity.
  - reflexivity.
Defined.

(** X11. Whatever it is given, [attachMiddleware] changes middleware lists
    only: the base path, the router options and the declared parameters of the
    target stay, the same method names have route groups, and every group
    keeps its status and the HTTP method and path of each of its route
    declarations, in order. *)
Theorem attachMiddleware_keeps_routing
    (target : Target) (property : option string) (B : value)
    (store : gmap nat ExpressMeta) :
  let meta := fst (getMeta (targetClass target) store) in
  let meta' :=
    fst (getMeta (targetClass target) (snd (attachMiddleware target property B store))) in
  meta_url meta' = meta_url meta /\
  meta_routerOptions meta' = meta_routerOptions meta /\
  meta_params meta' = meta_params meta /\
  forall name,
    (fun g => (method_status g,
               (fun r => (route_method r, route_url r)) <$> method_routes g))
      <$> meta_routes meta' !! name
    = (fun g => (method_status g,
                 (fun r => (route_method r, route_url r)) <$> method_routes g))
        <$> meta_routes meta !! name.
Proof.
  intros meta meta'. subst meta meta'. unfold attachMiddleware.
  pose proof (getMeta_idempotent (targetClass target) store) as Hidem.
  destruct (getMeta (targetClass target) store) as [meta store1]. simpl in *.
  destruct (negb (String.eqb (meta_url meta) "")); simpl.
  { rewrite getMeta_insert. done. }
  destruct (truthy_str property && in_routes _ _); simpl; [|by rewrite Hidem].
  destruct (meta_routes meta !! default "" property) as [g|] eqn:Hg; simpl;
    [|by rewrite Hidem].
  destruct (method_routes g) as [|route0 others] eqn:Hr; simpl; [by rewrite Hidem|].
  rewrite getMeta_insert. simpl. repeat split.
  intros name. destruct (decide (default "" property = name)) as [<-|Hne].
  - rewrite lookup_insert_eq, Hg. simpl. by rewrite Hr.
  - by rewrite lookup_insert_ne.
Qed.

(** X24. With an empty base path, a method name that the routes object only
    inherits ([toString], [constructor] and the like) and that no route group
    declares passes the [in] test of [attachMiddleware]: the attachment throws
    a TypeError, and the metadata stays as it was. *)
Theorem attachMiddleware_inherited_name_throws
    (target : Target) (p : string) (B : value) (store : gmap nat ExpressMeta) :
  meta_url (fst (getMeta (targetClass target) store)) = "" ->
  p ∈ Object_prototype_names ->
  meta_routes (fst (getMeta (targetClass target) store)) !! p = None ->
  exists msg,
    attachMiddleware target (Some p) B store
    = (Throw (TypeError msg), snd (getMeta (targetClass target) store)).
Proof.
  intros Hurl Hin Hnone.
  assert (Hp : truthy_str (Some p) = true).
  { unfold Object_prototype_names in Hin.
    repeat (apply elem_of_cons in Hin as [->|Hin]; [reflexivity|]).
    by apply elem_of_nil in Hin. }
  unfold attachMiddleware.
  destruct (getMeta (targetClass target) store) as [meta store1]. simpl in *.
  rewrite Hurl. simpl. unfold truthy_str in Hp. rewrite Hp. simpl.
  unfold in_routes. rewrite Hnone, bool_decide_eq_true_2 by done.
  eexists. reflexivity.
Qed.

Lemma attachMiddleware_inherited_name_throws_witness :
  exists msg,
    attachMiddleware (TargetObject 7) (Some "constructor") (VFun 2 [])
      {[ 7 := mkMeta "" VUndefined [] {[ "list" := mkMethodMeta [] None ]} ∅ ]}
    = (Throw (TypeError msg),
       snd (getMeta 7 {[ 7 := mkMeta "" VUndefined [] {[ "list" := mkMethodMeta [] None ]} ∅ ]})).
Proof.
  refine (attachMiddleware_inherited_name_throws (TargetObject 7) "constructor" (VFun 2 [])
            {[ 7 := mkMeta "" VUndefined [] {[ "list" := mkMethodMeta [] None ]} ∅ ]}
            _ _ _).
  - vm_compute. reflexivity.
  - apply (bool_decide_unpack _). vm_compute. exact I.
  - vm_compute. reflexivity.
Defined.

(** ** Middleware handlers, further *)

Section MiddlewareFurther.

Context {E : Type} `{!Outside E}.

(** X12. A middleware reference that is not a function (an object that has a
    [use] method, say, or an instance built beforehand) is skipped by the
    current handler: nothing of it is called, and [next] is called once with
    no argument. *)
Theorem middlewareHandler_non_function_skipped
    (mw req res : value) (n : nat) (w : world E) :
  is_function mw = false ->
  middlewareHandler mw req res (VNative n) w
  = (Normal VUndefined,
     mkWorld (framework (ECall (VNative n) VUndefined []) (outside w))
       (next_oid w) (reactions w) (trace w ++ [ECall (VNative n) VUndefined []])).
Proof.
  intros Hfn. unfold middlewareHandler, invokeMiddleware, getMiddlewareInstance.
  rewrite Hfn. reflexivity.
Qed.

(** X13. A plain middleware function that returns normally, and not a
    promise, is called once with the function itself as [this] and the
    request, the response and [next] as arguments; the handler constructs
    nothing, registers nothing and does not call [next] itself. *)
Theorem middlewareHandler_function_called_once
    (f : nat) (props : list (string * value)) (req res : value) (n : nat)
    (r : value) (o1 : E) (w : world E) :
  truthy (get_opt (member (VFun f props) "prototype") "use") = false ->
  nullish (member (VFun f props) "use") = true ->
  apply_fn (VFun f props) (VFun f props) [req; res; VNative n] (outside w) = (Normal r, o1) ->
  instanceof_Promise r = false ->
  middlewareHandler (VFun f props) req res (VNative n) w
  = (Normal VUndefined,
     mkWorld o1 (next_oid w) (reactions w)
       (trace w ++ [ECall (VFun f props) (VFun f props) [req; res; VNative n]])).
Proof.
  intros Huse Hown Hcall Hp.
  rewrite (middlewareHandler_function f props f props req res n w Huse)
    by (by rewrite Hown).
  simpl. rewrite Hcall. by destruct r.
Qed.

(** X14. A function that has a [use] member of its own (and none on its
    prototype) is not called itself: the handler calls that [use] member,
    with the function as [this]. *)
Theorem middlewareHandler_own_use_called_instead
    (f : nat) (props : list (string * value)) (g : nat) (gp : list (string * value))
    (req res : value) (n : nat) (w : world E) :
  truthy (get_opt (member (VFun f props) "prototype") "use") = false ->
  member (VFun f props) "use" = VFun g gp ->
  exists rest,
    trace (snd (middlewareHandler (VFun f props) req res (VNative n) w))
    = trace w ++ ECall (VFun g gp) (VFun f props) [req; res; VNative n] :: rest /\
    forall this args, ECall (VFun f props) this args ∈ rest -> False.
Proof.
  intros Huse Hown.
  rewrite (middlewareHandler_function f props g gp req res n w Huse)
    by (by rewrite Hown).
  simpl. destruct (apply_fn _ _ _ _) as [[r|e] o1]; simpl.
  - exists []. split; [reflexivity|]. intros this args Hin. by apply elem_of_nil in Hin.
  - exists [forwarded n e]. split; [reflexivity|].
    intros this args Hin. apply list_elem_of_singleton in Hin. discriminate Hin.
Qed.

(** X15. When a middleware function returns a promise, only its rejection
    matters to the handler: when the promise is fulfilled, whatever the value,
    the handler calls nothing. *)
Theorem middlewareHandler_fulfilled_promise_ignored
    (f : nat) (props : list (string * value)) (g : nat) (gp : list (string * value))
    (req res : value) (n p : nat) (o1 : E) (v : value) (w w' : world E) :
  truthy (get_opt (member (VFun f props) "prototype") "use") = false ->
  (if nullish (member (VFun f props) "use")
   then VFun f props else member (VFun f props) "use") = VFun g gp ->
  apply_fn (VFun g gp) (VFun f props) [req; res; VNative n] (outside w)
    = (Normal (VPromise p), o1) ->
  chains_on p w = [] ->
  chains_on p w' = chains_on p (snd (middlewareHandler (VFun f props) req res (VNative n) w)) ->
  trace (settle p (Fulfilled v) w') = trace w'.
Proof.
  intros Huse Hhandler Hcall Hfresh Hsame.
  rewrite (middlewareHandler_function f props g gp req res n w Huse Hhandler) in Hsame.
  simpl in Hsame. rewrite Hcall in Hsame. simpl in Hsame.
  rewrite (chains_on_snoc p _ _ _ (reactions w) _ w eq_refl), Hfresh in Hsame.
  by rewrite (settle_one_chain p (Fulfilled v) _ w' Hsame).
Qed.

(** X16. The earlier handler, given an object (or any truthy reference) whose
    [use] member is a function, calls that function with the array of
    request, response and [next] as [this] and with no argument at all; what
    it throws goes to [next], and a promise it returns is not listened to. *)
Theorem Old_middlewareHandler_use_gets_no_arguments
    (mw : value) (u : nat) (up : list (string * value))
    (req res : value) (n : nat) (w : world E) :
  truthy mw = true ->
  member mw "use" = VFun u up ->
  Old.middlewareHandler mw req res (VNative n) w
  = match apply_fn (VFun u up) (VArr [req; res; VNative n]) [] (outside w) with
    | (Normal _, o1) =>
        (Normal VUndefined,
         mkWorld o1 (next_oid w) (reactions w)
           (trace w ++ [ECall (VFun u up) (VArr [req; res; VNative n]) []]))
    | (Throw e, o1) =>
        (Normal VUndefined,
         mkWorld (framework (forwarded n e) o1) (next_oid w) (reactions w)
           (trace w ++ [ECall (VFun u up) (VArr [req; res; VNative n]) []; forwarded n e]))
    end.
Proof.
  intros Hmw Huse. pose proof (truthy_not_nullish mw Hmw) as Hnn.
  unfold Old.middlewareHandler, Old.invokeMiddleware, forwarded.
  unfold bind, async, try_catch, lift, get, react, run_callback, chain_end, ret.
  rewrite Hmw, Hnn, Huse. simpl.
  unfold call_member, call, emit, bind, set_outside. simpl.
  destruct (apply_fn _ _ _ _) as [[r|e] o1]; simpl.
  - reflexivity.
  - by rewrite <- !app_assoc.
Qed.

Lemma Old_invokeMiddleware_frame (mw req res : value) (n : nat) (w : world E) :
  exists v w1,
    Old.invokeMiddleware mw [req; res; VNative n] w = (Normal v, w1) /\
    next_oid w1 = next_oid w /\ reactions w1 = reactions w.
Proof.
  unfold Old.invokeMiddleware, try_catch.
  change (array_get [req; res; VNative n] (length [req; res; VNative n] - 1))
    with (VNative n).
  destruct (negb (truthy mw)).
  - rewrite call_native. eexists _, _. split; [reflexivity|]. simpl. done.
  - unfold bind, lift. destruct (get mw "use") as [use|e0].
    + pose proof (call_member_frame use (VArr [req; res; VNative n]) [] w) as [Hoid Hre].
      destruct (call_member use (VArr [req; res; VNative n]) [] w) as [[r|e] w1];
        simpl in Hoid, Hre.
      * unfold ret. eexists _, _. split; [reflexivity|]. done.
      * rewrite call_native. unfold ret. eexists _, _. split; [reflexivity|]. simpl. done.
    + rewrite call_native. unfold ret. eexists _, _. split; [reflexivity|]. simpl. done.
Qed.

(** X17. The earlier handler never constructs anything and never listens to
    a promise, whatever the reference, and like the current one it never
    throws to the framework. *)
Theorem Old_middlewareHandler_never_constructs
    (mw req res : value) (n : nat) (w : world E) :
  fst (Old.middlewareHandler mw req res (VNative n) w) = Normal VUndefined /\
  next_oid (snd (Old.middlewareHandler mw req res (VNative n) w)) = next_oid w /\
  reactions (snd (Old.middlewareHandler mw req res (VNative n) w)) = reactions w.
Proof.
  destruct (Old_invokeMiddleware_frame mw req res n w) as (v & w1 & Hrun & Hoid & Hre).
  unfold Old.middlewareHandler, bind, async. rewrite Hrun. simpl. done.
Qed.

End MiddlewareFurther.

Lemma middlewareHandler_non_function_skipped_witness :
  trace (snd (middlewareHandler (VObj [("use", VFun 7 [])])
                Demo.req Demo.res (VNative 0) Demo.start))
  = [ECall (VNative 0) VUndefined []].
Proof.
  rewrite (middlewareHandler_non_function_skipped (VObj [("use", VFun 7 [])])
             Demo.req Demo.res 0 Demo.start); reflexivity.
Defined.

Lemma middlewareHandler_function_called_once_witness :
  middlewareHandler Demo.plain Demo.req Demo.res (VNative 0) Demo.start
  = (Normal VUndefined,
     mkWorld false 0 []
       [ECall Demo.plain Demo.plain [Demo.req; Demo.res; VNative 0]]).
Proof.
  refine (middlewareHandler_function_called_once 4 [("prototype", VObj [])]
            Demo.req Demo.res 0 VUndefined false Demo.start _ _ _ _); reflexivity.
Defined.

Lemma middlewareHandler_own_use_called_instead_witness :
  exists rest,
    trace (snd (middlewareHandler (VFun 4 [("use", VFun 7 [])])
                  Demo.req Demo.res (VNative 0) Demo.start))
    = trace Demo.start
      ++ ECall (VFun 7 []) (VFun 4 [("use", VFun 7 [])]) [Demo.req; Demo.res; VNative 0]
         :: rest /\
    forall this args, ECall (VFun 4 [("use", VFun 7 [])]) this args ∈ rest -> False.
Proof.
  refine (middlewareHandler_own_use_called_instead 4 [("use", VFun 7 [])] 7 []
            Demo.req Demo.res 0 Demo.start _ _); reflexivity.
Defined.

Lemma middlewareHandler_fulfilled_promise_ignored_witness :
  trace (settle 5 (Fulfilled (VStr "done"))
           (snd (middlewareHandler (VFun 2 []) Demo.req Demo.res (VNative 0) Demo.start)))
  = trace (snd (middlewareHandler (VFun 2 []) Demo.req Demo.res (VNative 0) Demo.start)).
Proof.
  refine (middlewareHandler_fulfilled_promise_ignored 2 [] 2 []
            Demo.req Demo.res 0 5 false (VStr "done") Demo.start
            (snd (middlewareHandler (VFun 2 []) Demo.req Demo.res (VNative 0) Demo.start))
            _ _ _ _ _); reflexivity.
Defined.

Lemma Old_middlewareHandler_use_gets_no_arguments_witness :
  trace (snd (Old.middlewareHandler (VObj [("use", VFun 7 [])])
                Demo.req Demo.res (VNative 0) Demo.start))
  = [ECall (VFun 7 []) (VArr [Demo.req; Demo.res; VNative 0]) []].
Proof.
  rewrite (Old_middlewareHandler_use_gets_no_arguments (VObj [("use", VFun 7 [])]) 7 []
             Demo.req Demo.res 0 Demo.start); reflexivity.
Defined.

(** ** HTTP errors, further *)

(** An InternalServerError carries status 500, the name "InternalServerError"
    and the message it is built with (the empty message when built with the
    empty string); a ConflictError is told apart from it by its name. *)
Lemma InternalServerError_status_name_message (msg : string) :
  Errors.status (Errors.InternalServerError msg) = 500%Z /\
  Errors.name (Errors.InternalServerError msg) = "InternalServerError" /\
  Errors.message (Errors.InternalServerError msg) = msg /\
  forall other, Errors.name (Errors.ConflictError other) = "ConflictError".
Proof.
  unfold Errors.InternalServerError, Errors.ConflictError. simpl.
  destruct (String.eqb_spec msg "") as [->|_]; simpl; repeat split;
    intros other; destruct (truthy_str other); reflexivity.
Qed.

(** ** Registration at startup *)

Lemma is_function_not_nullish (v : value) : is_function v = true -> nullish v = false.
Proof. by destruct v. Qed.

Section RegistrationFacts.

Context `{!Host}.

Lemma register_route_ok (controller : value) (meta : ExpressMeta)
    (name : string) (group : MethodMeta) (route : Route) (router : Router) :
  is_function (router_member (route_method route)) = true ->
  register_route controller meta name group route router
  = Normal (mkRouter (router_options router)
              (router_calls router ++ [route_layer controller meta name group route])).
Proof.
  intros Hfn. unfold register_route, route_layer.
  by rewrite (is_function_not_nullish _ Hfn), Hfn.
Qed.

Lemma register_route_bad (controller : value) (meta : ExpressMeta)
    (name : string) (group : MethodMeta) (route : Route) (router : Router) :
  is_function (router_member (route_method route)) = false ->
  exists msg, register_route controller meta name group route router
              = Throw (TypeError msg).
Proof.
  intros Hfn. unfold register_route. rewrite Hfn.
  destruct (nullish _); eauto.
Qed.

Lemma forEach_route_ok (controller : value) (meta : ExpressMeta)
    (name : string) (group : MethodMeta) (routes : list Route) :
  (forall route, route ∈ routes ->
     is_function (router_member (route_method route)) = true) ->
  forall router,
    forEach_route controller meta name group routes router
    = Normal (mkRouter (router_options router)
                (router_calls router
                 ++ (route_layer controller meta name group <$> routes))).
Proof.
  induction routes as [|route rest IH]; intros Hok router; simpl.
  - rewrite app_nil_r. by destruct router.
  - rewrite register_route_ok by (apply Hok; left).
    rewrite IH by (intros r Hr; apply Hok; by right). simpl.
    by rewrite <- app_assoc.
Qed.

Lemma for_entries_ok (controller : value) (meta : ExpressMeta)
    (entries : list (string * MethodMeta)) :
  (forall entry route, entry ∈ entries -> route ∈ method_routes entry.2 ->
     is_function (router_member (route_method route)) = true) ->
  forall router,
    for_entries controller meta entries router
    = Normal (mkRouter (router_options router)
                (router_calls router ++ route_layers controller meta entries)).
Proof.
  induction entries as [|[name group] rest IH]; intros Hok router; simpl.
  - unfold route_layers. simpl. rewrite app_nil_r. by destruct router.
  - rewrite forEach_route_ok by (intros r Hr; apply (Hok (name, group)); [left|done]).
    rewrite IH by (intros e r He Hr; apply (Hok e r); [by right|done]). simpl.
    unfold route_layers. simpl. by rewrite <- app_assoc.
Qed.

(** A registration that comes to its end has met functions only; one that
    meets anything else throws a TypeError. *)
Lemma forEach_route_inv (controller : value) (meta : ExpressMeta)
    (name : string) (group : MethodMeta) (routes : list Route) :
  forall router,
    match forEach_route controller meta name group routes router with
    | Normal _ =>
        forall route, route ∈ routes ->
          is_function (router_member (route_method route)) = true
    | Throw e =>
        (exists msg, e = TypeError msg) /\
        exists route, route ∈ routes /\
          is_function (router_member (route_method route)) = false
    end.
Proof.
  induction routes as [|route rest IH]; intros router; simpl.
  - intros r Hr. by apply elem_of_nil in Hr.
  - destruct (is_function (router_member (route_method route))) eqn:Hfn.
    + rewrite register_route_ok by done.
      specialize (IH (mkRouter (router_options router)
                        (router_calls router
                         ++ [route_layer controller meta name group route]))).
      destruct (forEach_route _ _ _ _ rest _) as [r'|e].
      * intros r Hr. apply elem_of_cons in Hr as [->|Hr]; [done|by apply IH].
      * destruct IH as [Hmsg (r & Hr & Hbad)]. split; [done|].
        exists r. split; [by right|done].
    + destruct (register_route_bad controller meta name group route router Hfn)
        as [msg ->].
      split; [by exists msg|]. exists route. split; [left|done].
Qed.

Lemma for_entries_inv (controller : value) (meta : ExpressMeta)
    (entries : list (string * MethodMeta)) :
  forall router,
    match for_entries controller meta entries router with
    | Normal _ =>
        forall entry route, entry ∈ entries -> route ∈ method_routes entry.2 ->
          is_function (router_member (route_method route)) = true
    | Throw e =>
        (exists msg, e = TypeError msg) /\
        exists entry route, entry ∈ entries /\ route ∈ method_routes entry.2 /\
          is_function (router_member (route_method route)) = false
    end.
Proof.
  induction entries as [|[name group] rest IH]; intros router; simpl.
  - intros e r He. by apply elem_of_nil in He.
  - pose proof (forEach_route_inv controller meta name group (method_routes group) router)
      as Hgroup.
    destruct (forEach_route _ _ _ _ _ _) as [router1|e].
    + specialize (IH router1). destruct (for_entries _ _ rest _) as [r'|e].
      * intros entry r He Hr. apply elem_of_cons in He as [->|He]; [by apply Hgroup|].
        by apply (IH entry r).
      * destruct IH as [Hmsg (entry & r & He & Hr & Hbad)]. split; [done|].
        exists entry, r. split; [by right|done].
    + destruct Hgroup as [Hmsg (r & Hr & Hbad)]. split; [done|].
      exists (name, group), r. split; [left|done].
Qed.

Lemma Object_entries_lookup (m : gmap string MethodMeta) (name : string)
    (group : MethodMeta) :
  (name, group) ∈ Object_entries m <-> m !! name = Some group.
Proof. rewrite Object_entries_spec. apply elem_of_map_to_list. Qed.

Lemma registrable_entries (meta : ExpressMeta) :
  registrable meta <->
  forall entry route, entry ∈ Object_entries (meta_routes meta) ->
    route ∈ method_routes entry.2 ->
    is_function (router_member (route_method route)) = true.
Proof.
  unfold registrable. split.
  - intros Hreg [name group] route He Hr. apply Object_entries_lookup in He. eauto.
  - intros Hall name group route Hl Hr.
    apply (Hall (name, group) route); [by apply Object_entries_lookup|done].
Qed.

(** The registration of a controller whose routes the router knows. *)
Lemma registerController_registrable
    (app : list app_call) (c : ControllerRef) (store : gmap nat ExpressMeta) :
  let meta := fst (getMeta (controller_class c) store) in
  registrable meta ->
  registerController app c Normal store
  = (Normal tt,
     app ++ [AppMount (meta_url meta)
               (mkRouter (meta_routerOptions meta)
                  (match meta_middleware meta with
                   | [] => []
                   | _ => [RouterUse (MiddlewareHandler <$> meta_middleware meta)]
                   end
                   ++ route_layers (controller_value c) meta
                        (Object_entries (meta_routes meta))))],
     snd (getMeta (controller_class c) store)).
Proof.
  intros meta Hreg. subst meta. unfold registerController.
  destruct (getMeta (controller_class c) store) as [meta store1]. simpl in *.
  rewrite for_entries_ok by (by apply registrable_entries).
  by destruct (meta_middleware meta).
Qed.

(** X18. When every declared route names a function of the router, the
    registration of a controller is fulfilled and adds one mount to the
    application, after what was there, at the base path of the metadata.  The
    router mounted was made with the declared options and told, in this
    order: the router-level middleware handlers in one [use] (no [use] at all
    when there are none), then one call per route declaration, group after
    group, whose handlers are the route's middleware handlers in order
    followed by the generated handler of the controller's method. *)
Theorem registerController_mounts_router
    (app : list app_call) (c : ControllerRef) (store : gmap nat ExpressMeta) :
  let meta := fst (getMeta (controller_class c) store) in
  registrable meta ->
  registerController app c Normal store
  = (Normal tt,
     app ++ [AppMount (meta_url meta)
               (mkRouter (meta_routerOptions meta)
                  (match meta_middleware meta with
                   | [] => []
                   | _ => [RouterUse (MiddlewareHandler <$> meta_middleware meta)]
                   end
                   ++ route_layers (controller_value c) meta
                        (Object_entries (meta_routes meta))))],
     snd (getMeta (controller_class c) store)).
Proof. exact (registerController_registrable app c store). Qed.

(** X19. When some declared route names no function of the router (an HTTP
    method the framework does not know), the registration of the controller
    is rejected with a TypeError and the application is left as it was: the
    controller is not mounted, not even with the routes declared before the
    failing one. *)
Theorem registerController_unknown_method_not_mounted
    (app : list app_call) (c : ControllerRef) (store : gmap nat ExpressMeta)
    (name : string) (group : MethodMeta) (route : Route) :
  meta_routes (fst (getMeta (controller_class c) store)) !! name = Some group ->
  route ∈ method_routes group ->
  is_function (router_member (route_method route)) = false ->
  exists msg,
    registerController app c Normal store
    = (Throw (TypeError msg), app, snd (getMeta (controller_class c) store)).
Proof.
  intros Hgroup Hroute Hbad. unfold registerController.
  destruct (getMeta (controller_class c) store) as [meta store1]. simpl in *.
  match goal with
  | |- context [for_entries ?v ?m ?e ?r] =>
      pose proof (for_entries_inv v m e r) as Hinv;
      destruct (for_entries v m e r) as [router|e0]
  end.
  - apply Object_entries_lookup in Hgroup.
    rewrite (Hinv (name, group) route Hgroup Hroute) in Hbad. discriminate Hbad.
  - destruct Hinv as [[msg ->] _]. by exists msg.
Qed.

(** X20. Registration reads the metadata and never changes it: every record
    in the store before is in the store after, the same, whether the
    registration is fulfilled or rejected. *)
Theorem registerController_keeps_metadata
    (app : list app_call) (c : ControllerRef)
    (extractController : ControllerRef -> completion ControllerRef)
    (store : gmap nat ExpressMeta) (k : nat) (meta : ExpressMeta) :
  store !! k = Some meta ->
  (registerController app c extractController store).2 !! k = Some meta.
Proof.
  intros Hk. unfold registerController.
  destruct (extractController c) as [c'|e]; [|done].
  assert (Hget : snd (getMeta (controller_class c') store) !! k = Some meta).
  { destruct (decide (k = controller_class c')) as [->|Hne].
    - unfold getMeta. by rewrite Hk.
    - by rewrite getMeta_other. }
  destruct (getMeta (controller_class c') store) as [meta1 store1]. simpl in Hget.
  by destruct (for_entries _ _ _ _).
Qed.

End RegistrationFacts.

Section AttachControllers.

Context `{!Host}.

Lemma getMeta_after_getMeta (k k' : nat) (store : gmap nat ExpressMeta) :
  fst (getMeta k (snd (getMeta k' store))) = fst (getMeta k store).
Proof.
  destruct (decide (k = k')) as [->|Hne].
  - by rewrite getMeta_idempotent.
  - unfold getMeta at 1. rewrite getMeta_other by done.
    unfold getMeta. by destruct (store !! k).
Qed.

(** What a registration does, in terms of the mount the controller gives
    when it is registered alone. *)
Lemma registerController_mount_of
    (app : list app_call) (c : ControllerRef) (store : gmap nat ExpressMeta) :
  match mount_of store c with
  | Some mount =>
      registerController app c Normal store
      = (Normal tt, app ++ [mount], snd (getMeta (controller_class c) store))
  | None =>
      exists e, registerController app c Normal store
                = (Throw e, app, snd (getMeta (controller_class c) store))
  end.
Proof.
  unfold mount_of, registerController.
  destruct (getMeta (controller_class c) store) as [meta store1]. simpl.
  destruct (for_entries _ _ _ _) as [router|e]; simpl; eauto.
Qed.

Lemma mount_of_same_meta (s s0 : gmap nat ExpressMeta) (c : ControllerRef) :
  fst (getMeta (controller_class c) s) = fst (getMeta (controller_class c) s0) ->
  mount_of s c = mount_of s0 c.
Proof.
  unfold mount_of, registerController. intros Hsame.
  destruct (getMeta (controller_class c) s) as [meta store1].
  destruct (getMeta (controller_class c) s0) as [meta0 store0].
  simpl in Hsame. subst meta0.
  by destruct (for_entries _ _ _ _).
Qed.

Lemma mount_of_registrable (store : gmap nat ExpressMeta) (c : ControllerRef) :
  is_Some (mount_of store c) <-> registrable (fst (getMeta (controller_class c) store)).
Proof.
  unfold mount_of, registerController.
  destruct (getMeta (controller_class c) store) as [meta store1]. simpl.
  match goal with
  | |- context [for_entries ?v ?m ?e ?r] =>
      pose proof (for_entries_inv v m e r) as Hinv;
      destruct (for_entries v m e r) as [router|e0]
  end; simpl.
  - split; [|by eauto]. intros _. exact (proj2 (registrable_entries meta) Hinv).
  - split; [by intros [? [=]]|]. intros Hreg.
    pose proof (proj1 (registrable_entries meta) Hreg) as Hall.
    destruct Hinv as [_ (entry & route & He & Hr & Hbad)].
    rewrite (Hall entry route He Hr) in Hbad. discriminate Hbad.
Qed.

Lemma register_each_spec (s0 : gmap nat ExpressMeta) (controllers : list ControllerRef) :
  forall app s,
    (forall k, fst (getMeta k s) = fst (getMeta k s0)) ->
    (register_each app controllers s).1.2 = app ++ omap (mount_of s0) controllers /\
    (Promise_all (register_each app controllers s).1.1 = Normal tt <->
     forall c, c ∈ controllers -> is_Some (mount_of s0 c)).
Proof.
  induction controllers as [|c rest IH]; intros app s Hsame; simpl.
  - rewrite app_nil_r. split; [done|]. split; [|done].
    intros _ c Hc. by apply elem_of_nil in Hc.
  - pose proof (registerController_mount_of app c s) as Hc.
    rewrite (mount_of_same_meta s s0 c (Hsame _)) in Hc.
    assert (Hnext : forall k,
              fst (getMeta k (snd (getMeta (controller_class c) s)))
              = fst (getMeta k s0)).
    { intros k. by rewrite getMeta_after_getMeta. }
    destruct (mount_of s0 c) as [mount|] eqn:Hmount.
    + rewrite Hc.
      specialize (IH (app ++ [mount]) _ Hnext).
      destruct (register_each _ rest _) as [[ps app'] s'] eqn:Hrest. simpl in *.
      destruct IH as [Happ Hall]. split; [by rewrite Happ, <- app_assoc|].
      rewrite Hall. split.
      * intros Hrestok c' Hc'. apply elem_of_cons in Hc' as [->|Hc']; [by rewrite Hmount|].
        by apply Hrestok.
      * intros Hallok c' Hc'. apply Hallok. by right.
    + destruct Hc as [e Hc]. rewrite Hc.
      specialize (IH app _ Hnext).
      destruct (register_each _ rest _) as [[ps app'] s'] eqn:Hrest. simpl in *.
      destruct IH as [Happ _]. split; [done|]. split; [done|].
      intros Hallok. destruct (Hallok c ltac:(left)) as [m Hm]. congruence.
Qed.

(** X21. [attachControllersInstances] mounts the controllers that can be
    registered, each as if it were registered alone, in the order of the
    list; a controller whose registration is rejected adds nothing and does
    not keep the ones after it from being mounted.  The promise it returns is
    fulfilled exactly when every controller declares only routes the router
    has a function for. *)
Theorem attachControllersInstances_mounts_each
    (app : list app_call) (controllers : list ControllerRef)
    (store : gmap nat ExpressMeta) :
  (attachControllersInstances app controllers store).1.2
    = app ++ omap (mount_of store) controllers /\
  ((attachControllersInstances app controllers store).1.1 = Normal tt <->
   forall c, c ∈ controllers ->
     registrable (fst (getMeta (controller_class c) store))) /\
  (forall c, c ∈ controllers ->
     registrable (fst (getMeta (controller_class c) store)) ->
     exists router,
       AppMount (meta_url (fst (getMeta (controller_class c) store))) router
       ∈ (attachControllersInstances app controllers store).1.2).
Proof.
  unfold attachControllersInstances.
  destruct (register_each_spec store controllers app store (fun k => eq_refl))
    as [Happ Hall].
  destruct (register_each app controllers store) as [[ps app'] s']. simpl in *.
  split; [exact Happ|]. split.
  - rewrite Hall. split; intros Hok c Hc; apply mount_of_registrable; by apply Hok.
  - intros c Hc Hreg. rewrite Happ.
    pose proof (registerController_registrable [] c store Hreg) as Hrun.
    eexists. apply elem_of_app. right. apply list_elem_of_omap.
    exists c. split; [done|]. unfold mount_of. rewrite Hrun. reflexivity.
Qed.

End AttachControllers.

(** ** Application-level middleware *)

Lemma attachMiddlewareInstances_spec (middlewares : list value) :
  forall app,
    Forall (fun mw => nullish mw = false) middlewares ->
    attachMiddlewareInstances app middlewares
    = (Normal tt,
       app ++ ((fun mw => AppUse (if is_function mw then mw else member mw "use"))
                 <$> middlewares)).
Proof.
  induction middlewares as [|mw rest IH]; intros app Hall; simpl.
  - by rewrite app_nil_r.
  - apply Forall_cons in Hall as [Hmw Hrest]. unfold get. rewrite Hmw.
    destruct (is_function mw); rewrite IH by done; by rewrite <- app_assoc.
Qed.

(** X22. [attachMiddlewareInstances] tells the application one [use] per
    middleware, in the order of the list: a function is passed as it is (a
    class is not instantiated, and nothing is wrapped in a handler), anything
    else is replaced by its [use] member, detached from it. *)
Theorem attachMiddlewareInstances_uses_each
    (app : list app_call) (middlewares : list value) :
  Forall (fun mw => nullish mw = false) middlewares ->
  attachMiddlewareInstances app middlewares
  = (Normal tt,
     app ++ ((fun mw => AppUse (if is_function mw then mw else member mw "use"))
               <$> middlewares)).
Proof. apply attachMiddlewareInstances_spec. Qed.

(** X23. An [undefined] or [null] entry makes [attachMiddlewareInstances]
    throw a TypeError when it is reached: the entries before it have been
    passed to the application, the entries after it have not. *)
Theorem attachMiddlewareInstances_stops_at_nullish
    (app : list app_call) (before after : list value) (bad : value) :
  Forall (fun mw => nullish mw = false) before ->
  nullish bad = true ->
  attachMiddlewareInstances app (before ++ bad :: after)
  = (Throw (TypeError "Cannot read properties of undefined or null"),
     app ++ ((fun mw => AppUse (if is_function mw then mw else member mw "use"))
               <$> before)).
Proof.
  revert app. induction before as [|mw rest IH]; intros app Hall Hbad; simpl.
  - unfold get. rewrite Hbad.
    assert (is_function bad = false) as -> by (by destruct bad).
    by rewrite app_nil_r.
  - apply Forall_cons in Hall as [Hmw Hrest]. unfold get. rewrite Hmw.
    destruct (is_function mw); rewrite IH by done; by rewrite <- app_assoc.
Qed.

Lemma registerController_mounts_router_witness :
  exists router,
    registerController [] DemoHost.users Normal DemoHost.store
    = (Normal tt, [AppMount "/users" router],
       snd (getMeta 7 DemoHost.store)) /\
    router_calls router
    = [RouterUse [MiddlewareHandler Demo.Logger];
       RouterMember "get" "/"
         [MiddlewareHandler Demo.plain;
          RouteHandler Demo.controller "now" (Some [mkParam 0 REQUEST None]) (Some 200%Z)]].
Proof.
  eexists. split.
  - rewrite (registerController_mounts_router [] DemoHost.users DemoHost.store).
    + vm_compute. reflexivity.
    + intros name group route Hgroup Hroute.
      destruct (decide (name = "now")) as [->|Hne].
      * vm_compute in Hgroup. injection Hgroup as <-.
        apply list_elem_of_singleton in Hroute. subst route. reflexivity.
      * assert (Hnone : meta_routes (fst (getMeta (controller_class DemoHost.users)
                                            DemoHost.store)) !! name = None).
        { change (({[ "now" := mkMethodMeta [mkRoute "get" "/" [Demo.plain]] (Some 200%Z) ]}
                     : gmap string MethodMeta) !! name = None).
          by apply lookup_singleton_ne. }
        rewrite Hnone in Hgroup. discriminate Hgroup.
  - reflexivity.
Defined.

Lemma registerController_unknown_method_not_mounted_witness :
  exists msg,
    registerController [AppUse Demo.plain] DemoHost.broken Normal DemoHost.store
    = (Throw (TypeError msg), [AppUse Demo.plain], snd (getMeta 8 DemoHost.store)).
Proof.
  refine (registerController_unknown_method_not_mounted [AppUse Demo.plain]
            DemoHost.broken DemoHost.store "later"
            (mkMethodMeta [mkRoute "fetch" "/" []] None) (mkRoute "fetch" "/" []) _ _ _).
  - vm_compute. reflexivity.
  - apply list_elem_of_here.
  - reflexivity.
Defined.

Lemma registerController_keeps_metadata_witness :
  (registerController [] DemoHost.broken Normal DemoHost.store).2 !! 7
  = DemoHost.store !! 7.
Proof.
  rewrite (registerController_keeps_metadata [] DemoHost.broken Normal DemoHost.store 7
             (mkMeta "/users" VUndefined [Demo.Logger]
                {[ "now" := mkMethodMeta [mkRoute "get" "/" [Demo.plain]] (Some 200%Z) ]}
                {[ "now" := [mkParam 0 REQUEST None] ]})).
  - vm_compute. reflexivity.
  - vm_compute. reflexivity.
Defined.

Example attachControllersInstances_one_fails :
  (attachControllersInstances [] [DemoHost.broken; DemoHost.users] DemoHost.store).1
  = (Throw (TypeError "Cannot read properties of undefined or null"),
     [AppMount "/users"
        (mkRouter VUndefined
           [RouterUse [MiddlewareHandler Demo.Logger];
            RouterMember "get" "/"
              [MiddlewareHandler Demo.plain;
               RouteHandler Demo.controller "now" (Some [mkParam 0 REQUEST None])
                 (Some 200%Z)]])]).
Proof. vm_compute. reflexivity. Qed.

Lemma attachMiddlewareInstances_uses_each_witness :
  attachMiddlewareInstances [] [Demo.Logger; VObj [("use", VFun 7 [])]]
  = (Normal tt, [AppUse Demo.Logger; AppUse (VFun 7 [])]).
Proof.
  refine (attachMiddlewareInstances_uses_each []
            [Demo.Logger; VObj [("use", VFun 7 [])]] _).
  repeat constructor.
Defined.

Lemma attachMiddlewareInstances_stops_at_nullish_witness :
  attachMiddlewareInstances [] ([Demo.Logger] ++ VUndefined :: [Demo.plain])
  = (Throw (TypeError "Cannot read properties of undefined or null"),
     [AppUse Demo.Logger]).
Proof.
  refine (attachMiddlewareInstances_stops_at_nullish [] [Demo.Logger] [Demo.plain]
            VUndefined _ _).
  - repeat constructor.
  - reflexivity.
Defined.

Lemma attachControllersInstances_mounts_each_witness :
  exists router,
    AppMount "/users" router
    ∈ (attachControllersInstances [] [DemoHost.broken; DemoHost.users] DemoHost.store).1.2.
Proof.
  refine (proj2 (proj2 (attachControllersInstances_mounts_each []
                          [DemoHost.broken; DemoHost.users] DemoHost.store))
            DemoHost.users _ _).
  - apply list_elem_of_further, list_elem_of_here.
  - intros name group route Hgroup Hroute.
    destruct (decide (name = "now")) as [->|Hne].
    + vm_compute in Hgroup. injection Hgroup as <-.
      apply list_elem_of_singleton in Hroute. subst route. reflexivity.
    + assert (Hnone : meta_routes (fst (getMeta (controller_class DemoHost.users)
                                          DemoHost.store)) !! name = None).
      { change (({[ "now" := mkMethodMeta [mkRoute "get" "/" [Demo.plain]] (Some 200%Z) ]}
                   : gmap string MethodMeta) !! name = None).
        by apply lookup_singleton_ne. }
      rewrite Hnone in Hgroup. discriminate Hgroup.
Defined.
